(** * Semesters MCP server: rule engines, validators and generators

    A shallow embedding of the tool handlers of the Semesters development
    server (class [SemestersMCP]) and the properties of its rule tables.

    Conventions of the embedding.
    - A JavaScript string is a [string]: a sequence of 8-bit characters, the
      UTF-8 bytes of the text.  Case conversion is the ASCII one (letters
      [A]-[Z] and [a]-[z]); bytes above 127 are left as they are, so the
      embedding speaks about ASCII input text.
    - An array is a [list]; [forEach] with [push] on a local array is a left
      fold that threads the array.
    - An object literal is an association list in insertion order.
    - A handler returns the response envelope [{ content: [ { type, text } ] }]
      or raises a [TypeError].
    - The arguments object of a call is a record of optional fields: a field
      is absent or holds a value of the JSON type that the tool catalog
      declares for it. *)

From Stdlib Require Import String Ascii List ZArith Bool Lia DecimalString.
Import ListNotations.
Open Scope string_scope.

Set Warnings "-register-all".

(** ** JavaScript strings and arrays *)

Module Js.

(** The double quote and the line feed, which the template literals of the
    source contain. *)
Definition dq : string := String "034"%char EmptyString.
Definition nl : string := String "010"%char EmptyString.

Definition lowerChar (c : ascii) : ascii :=
  let n := nat_of_ascii c in
  if (65 <=? n)%nat && (n <=? 90)%nat then ascii_of_nat (n + 32) else c.

Definition upperChar (c : ascii) : ascii :=
  let n := nat_of_ascii c in
  if (97 <=? n)%nat && (n <=? 122)%nat then ascii_of_nat (n - 32) else c.

(** [String.prototype.toLowerCase] and [toUpperCase] on ASCII text: the
    letters A-Z and a-z change case and every other byte is kept.  On text
    outside ASCII the host's functions change more (the Kelvin sign U+212A
    lower-cases to k); the handlers that lower-case their input are given
    over every text in [Host], with the host's function as a parameter. *)
Fixpoint toLowerCase (s : string) : string :=
  match s with
  | EmptyString => EmptyString
  | String c r => String (lowerChar c) (toLowerCase r)
  end.

Fixpoint toUpperCase (s : string) : string :=
  match s with
  | EmptyString => EmptyString
  | String c r => String (upperChar c) (toUpperCase r)
  end.

(** [s.includes(w)]: [w] occurs in [s] at some position. *)
Fixpoint includes (s w : string) : bool :=
  prefix w s ||
  match s with
  | EmptyString => false
  | String _ r => includes r w
  end.

(** [s.replace(pat, by)] with a string pattern and a replacement without
    [$] patterns: the first occurrence only. *)
Fixpoint replace (s pat by_ : string) : string :=
  if prefix pat s
  then by_ ++ substring (String.length pat)
                        (String.length s - String.length pat) s
  else match s with
       | EmptyString => EmptyString
       | String c r => String c (replace r pat by_)
       end.

(** [arr.join(sep)] on an array of strings. *)
Fixpoint join (sep : string) (l : list string) : string :=
  match l with
  | [] => EmptyString
  | [x] => x
  | x :: r => x ++ sep ++ join sep r
  end.

(** [arr.push(x)]. *)
Definition push {A : Type} (arr : list A) (x : A) : list A := (arr ++ [x])%list.

(** [arr.includes(x)] on an array of strings. *)
Definition arrayIncludes (l : list string) (x : string) : bool :=
  existsb (String.eqb x) l.

(** A destructured argument with a default: [{ x = d } = args]. *)
Definition orDefault (v : option string) (d : string) : string :=
  match v with
  | Some x => x
  | None => d
  end.

(** Number-to-string conversion of an integer below 2^53 in absolute value:
    its decimal digits.  Larger numbers (rounded digits, and the exponent
    form from 1e21 on) and fractional numbers are outside this definition;
    [Host] takes the conversion as a parameter. *)
Definition numberToString (z : Z) : string :=
  NilZero.string_of_int (Z.to_int z).

End Js.

Import Js.

(** ** The response envelope *)

Record TextContent := mkTextContent { type : string; text : string }.

Record ToolResponse := mkToolResponse { content : list TextContent }.

(** What a handler call ends in. *)
Inductive outcome :=
| Returns (r : ToolResponse)
| TypeError.

Definition textResponse (t : string) : ToolResponse :=
  mkToolResponse [mkTextContent "text" t].

(** [items.map(i => `- ${i}`).join('\n')] *)
Definition bullets (items : list string) : string :=
  join nl (map (fun i => "- " ++ i) items).

(** ** Static tables *)

Module TRAUMA_INFORMED_PRINCIPLES.

Definition avoid : list string :=
  [ "wrong"; "incorrect"; "mistake"; "error"; "failed"; "try again";
    "you should"; "you need to"; "that's not right"; "no" ].

Definition encourage : list string :=
  [ "great try"; "let's practice"; "you're learning"; "nice work";
    "want to try together"; "your brain is growing"; "every attempt helps" ].

Definition principles : list string :=
  [ "No failure states";
    "Child has control";
    "Unconditional positive regard";
    "Multiple pathways to success";
    "Celebrate effort over accuracy" ].

End TRAUMA_INFORMED_PRINCIPLES.

(** ** review_trauma_content *)

Definition pressureWords : list string :=
  [ "must"; "should"; "have to"; "need to"; "required" ].

Definition triggeringWord (word : string) : string :=
  "Contains potentially triggering word: " ++ dq ++ word ++ dq.

Definition pressureWord (word : string) : string :=
  "May create pressure with word: " ++ dq ++ word ++ dq.

(** The first [forEach]: one issue per phrase of [avoid] found in the
    lower-cased content. *)
Definition scanAvoid (content : string) (issues : list string) : list string :=
  fold_left
    (fun issues word =>
       if includes (toLowerCase content) (toLowerCase word)
       then push issues (triggeringWord word) else issues)
    TRAUMA_INFORMED_PRINCIPLES.avoid issues.

(** The second [forEach], over the pressure words. *)
Definition scanPressure (content : string) (issues : list string) : list string :=
  fold_left
    (fun issues word =>
       if includes (toLowerCase content) word
       then push issues (pressureWord word) else issues)
    pressureWords issues.

Definition positiveAlternatives : list string :=
  [ "Great try! Let's practice that together.";
    "You're learning! Every attempt makes your brain stronger.";
    "Want to try another way?";
    "Nice work exploring that sound!" ].

(** The local variables of [reviewTraumaContent] when it builds its answer. *)
Record TraumaReview := mkTraumaReview {
  tr_issues : list string;
  tr_alternatives : list string;
  isTraumaInformed : bool
}.

Definition traumaReview (content : string) : TraumaReview :=
  let issues := scanPressure content (scanAvoid content []) in
  let alternatives :=
    if (0 <? List.length issues)%nat then positiveAlternatives else [] in
  mkTraumaReview issues alternatives (List.length issues =? 0)%nat.

(** The template literal of the answer. *)
Definition traumaReport (content context : string) (r : TraumaReview) : string :=
    ("TRAUMA-INFORMED CONTENT REVIEW" ++ nl ++ nl ++
     "Content: " ++ dq ++ content ++ dq ++ nl ++
     "Context: " ++ context ++ nl ++ nl ++
     (if isTraumaInformed r
      then "✅ TRAUMA-INFORMED COMPLIANT" else "❌ ISSUES DETECTED") ++
     nl ++ nl ++
     (if (0 <? List.length (tr_issues r))%nat
      then "Issues:" ++ nl ++ bullets (tr_issues r) ++ nl ++ nl ++
           "Positive Alternatives:" ++ nl ++
           join nl (map (fun a => "- " ++ dq ++ a ++ dq) (tr_alternatives r))
      else "No trauma-informed issues detected. Content supports psychological safety.") ++
     nl ++ nl ++ "Principles Applied:" ++ nl ++
     bullets TRAUMA_INFORMED_PRINCIPLES.principles).

Definition reviewTraumaContent (content : string) (context : option string)
  : ToolResponse :=
  let context := orDefault context "" in
  textResponse (traumaReport content context (traumaReview content)).

(** ** JSON values and [JSON.stringify] *)

(** A JSON value as a request carries it.  Numbers are the integer-valued
    ones below 2^53 in absolute value, and text is ASCII; the property list
    of an object is in enumeration order.  [Host] takes the values and their
    serialization as parameters. *)
Inductive json :=
| JNull
| JBool (b : bool)
| JNumber (z : Z)
| JString (s : string)
| JArray (items : list json)
| JObject (props : list (string * json)).

Module JSON.

Definition hexDigit (n : nat) : ascii :=
  if (n <? 10)%nat then ascii_of_nat (48 + n) else ascii_of_nat (87 + n).

(** The escape of one character inside a JSON string literal. *)
Definition escapeChar (c : ascii) : string :=
  let n := nat_of_ascii c in
  if (n =? 34)%nat then "\" ++ dq
  else if (n =? 92)%nat then "\\"
  else if (n =? 8)%nat then "\b"
  else if (n =? 12)%nat then "\f"
  else if (n =? 10)%nat then "\n"
  else if (n =? 13)%nat then "\r"
  else if (n =? 9)%nat then "\t"
  else if (n <? 32)%nat
       then "\u00" ++ String (hexDigit (n / 16)) (String (hexDigit (n mod 16)) "")
  else String c "".

Fixpoint escape (s : string) : string :=
  match s with
  | EmptyString => EmptyString
  | String c r => escapeChar c ++ escape r
  end.

Definition quote (s : string) : string := dq ++ escape s ++ dq.

(** [JSON.stringify(v)] *)
Fixpoint stringify (v : json) : string :=
  match v with
  | JNull => "null"
  | JBool true => "true"
  | JBool false => "false"
  | JNumber z => numberToString z
  | JString s => quote s
  | JArray items => "[" ++ join "," (map stringify items) ++ "]"
  | JObject props =>
      "{" ++ join "," (map (fun '(k, x) => quote k ++ ":" ++ stringify x) props)
          ++ "}"
  end.

(** [JSON.stringify(v, null, 2)], at the current indentation [ind]. *)
Fixpoint stringifyAt (ind : string) (v : json) : string :=
  let inner := ind ++ "  " in
  match v with
  | JNull => "null"
  | JBool true => "true"
  | JBool false => "false"
  | JNumber z => numberToString z
  | JString s => quote s
  | JArray [] => "[]"
  | JArray items =>
      "[" ++ nl ++ inner ++
      join ("," ++ nl ++ inner) (map (stringifyAt inner) items) ++
      nl ++ ind ++ "]"
  | JObject [] => "{}"
  | JObject props =>
      "{" ++ nl ++ inner ++
      join ("," ++ nl ++ inner)
           (map (fun '(k, x) => quote k ++ ": " ++ stringifyAt inner x) props) ++
      nl ++ ind ++ "}"
  end.

Definition stringifyPretty (v : json) : string := stringifyAt "" v.

End JSON.

(** Objects built by assignment: [obj.k = v] overwrites the value of an
    existing key in place and appends a new key. *)
Fixpoint setProp {A : Type} (obj : list (string * A)) (k : string) (v : A)
  : list (string * A) :=
  match obj with
  | [] => [(k, v)]
  | (k', v') :: r =>
      if String.eqb k' k then (k, v) :: r else (k', v') :: setProp r k v
  end.

Fixpoint getOwn {A : Type} (obj : list (string * A)) (k : string) : option A :=
  match obj with
  | [] => None
  | (k', v) :: r => if String.eqb k' k then Some v else getOwn r k
  end.

Definition keys {A : Type} (obj : list (string * A)) : list string :=
  map fst obj.

(** [Object.values(obj)] *)
Definition values {A : Type} (obj : list (string * A)) : list A :=
  map snd obj.

(** [arr[i]] for an integer-valued number [i]: [None] is [undefined]. *)
Definition at_index {A : Type} (arr : list A) (i : Z) : option A :=
  if (i <? 0)%Z then None else nth_error arr (Z.to_nat i).

(** ** The Orton-Gillingham curriculum *)

Record CurriculumLevel := mkLevel {
  phonemes : option (list string);
  words : option (list string);
  focus : string;
  masteryRequirement : Z
}.

Definition OG_CURRICULUM : list (string * CurriculumLevel) :=
  [ ("level1",
     mkLevel (Some ["a"; "b"; "c"; "d"; "e"; "f"; "g"; "h"; "i"])
             None "Single letter sounds" 90);
    ("level2",
     mkLevel (Some ["j"; "k"; "l"; "m"; "n"; "o"; "p"; "q"; "r"])
             (Some ["cat"; "dog"; "run"; "big"; "hat"]) "CVC words" 85);
    ("level3",
     mkLevel (Some ["s"; "t"; "u"; "v"; "w"; "x"; "y"; "z"])
             (Some ["bath"; "ship"; "thin"]) "Consonant digraphs" 85) ].

(** ** validate_og_activity *)

Record OGValidation := mkOGValidation {
  isSequential : bool;
  isMultisensory : bool;
  hasPhonemesFocus : bool;
  meetsLevel : bool;
  og_issues : list string;
  og_recommendations : list string
}.

Definition modalityNames : list string :=
  [ "visual"; "auditory"; "kinesthetic"; "tactile" ].

(** [Object.values(OG_CURRICULUM)[targetLevel - 1]] *)
Definition levelData (targetLevel : Z) : option CurriculumLevel :=
  at_index (values OG_CURRICULUM) (targetLevel - 1).

(** The [validation] object once every field has its final value.
    [activityString] is [JSON.stringify(activity).toLowerCase()]. *)
Definition ogValidation (activityString : string) (targetLevel : Z)
    (level : CurriculumLevel) : OGValidation :=
  let modalityCount :=
    List.length (filter (fun m => includes activityString m) modalityNames) in
  let isMultisensory := (2 <=? modalityCount)%nat in
  let issues1 :=
    if negb isMultisensory
    then push [] "Activity should include multiple sensory modalities" else [] in
  let recommendations :=
    if negb isMultisensory
    then push [] "Add visual, auditory, and kinesthetic elements" else [] in
  let '(hasPhonemesFocus, issues2) :=
    match phonemes level with
    | Some ps =>
        let found :=
          existsb (fun p => includes activityString (toLowerCase p)) ps in
        (found,
         if negb found
         then push issues1
                ("Activity should focus on level " ++ numberToString targetLevel ++
                 " phonemes: " ++ join ", " ps)
         else issues1)
    | None => (false, issues1)
    end in
  mkOGValidation true isMultisensory hasPhonemesFocus
                 (isMultisensory && hasPhonemesFocus) issues2 recommendations.

Definition mark (b : bool) : string := if b then "✅" else "❌".

Definition ogReport (targetLevel : Z) (level : CurriculumLevel)
    (validation : OGValidation) : string :=
  "ORTON-GILLINGHAM ACTIVITY VALIDATION" ++ nl ++ nl ++
  "Target Level: " ++ numberToString targetLevel ++ " - " ++ focus level ++
  nl ++ nl ++
  (if meetsLevel validation then "✅ OG COMPLIANT" else "❌ NEEDS IMPROVEMENT") ++
  nl ++ nl ++ "Validation Results:" ++ nl ++
  "- Sequential: " ++ mark (isSequential validation) ++ nl ++
  "- Multisensory: " ++ mark (isMultisensory validation) ++ nl ++
  "- Phoneme Focus: " ++ mark (hasPhonemesFocus validation) ++ nl ++ nl ++
  (if (0 <? List.length (og_issues validation))%nat
   then "Issues:" ++ nl ++ bullets (og_issues validation) ++ nl ++ nl ++
        "Recommendations:" ++ nl ++ bullets (og_recommendations validation)
   else "Activity meets OG standards!").

Definition invalidLevel (targetLevel : Z) : string :=
  "❌ Invalid OG level: " ++ numberToString targetLevel ++ ". Must be 1-3.".

(** [activity] is [None] when the argument is absent ([undefined]):
    [JSON.stringify(undefined)] is [undefined], and calling [toLowerCase]
    on it raises. *)
Definition validateOGActivity (activity : option json) (targetLevel : Z)
  : outcome :=
  match levelData targetLevel with
  | None => Returns (textResponse (invalidLevel targetLevel))
  | Some level =>
      match activity with
      | None => TypeError
      | Some a =>
          let activityString := toLowerCase (JSON.stringify a) in
          Returns (textResponse
                     (ogReport targetLevel level
                               (ogValidation activityString targetLevel level)))
      end
  end.

(** ** generate_phoneme_activity *)

Definition assessment : json :=
  JObject
    [ ("masteryIndicators",
       JArray [ JString "Automatic recognition (< 2 seconds)";
                JString "Correct sound production";
                JString "Proper letter formation" ]);
      ("practiceStructure",
       JString "Present → Model → Practice → Assess → Celebrate") ].

Definition visualComponent (phoneme : string) : json :=
  JObject
    [ ("letterDisplay",
       JString ("Large, clear display of letter " ++ dq ++ toUpperCase phoneme ++ dq));
      ("visualization", JString "Child sees the letter in high contrast");
      ("animation", JString "Letter appears with gentle fade-in effect") ].

Definition auditoryComponent (phoneme : string) : json :=
  JObject
    [ ("phonemeSound", JString ("Clear pronunciation of /" ++ phoneme ++ "/ sound"));
      ("repetition", JString "Sound plays automatically when letter appears");
      ("childRepeat", JString "Child encouraged to repeat the sound aloud") ].

Definition kinestheticComponent : json :=
  JObject
    [ ("letterTracing", JString "Child traces letter shape with finger on screen");
      ("airWriting", JString ("Child " ++ dq ++ "writes" ++ dq ++ " letter in the air"));
      ("bodyMovement", JString "Associate letter with body movement or gesture") ].

Definition tactileComponent : json :=
  JObject
    [ ("textureAssociation", JString "Connect letter with tactile experience");
      ("hapticFeedback", JString "Device vibration when letter is traced correctly");
      ("physicalProps",
       JString "Optional: textured letter cards for real-world practice") ].

(** [activity.components] after the four guarded assignments and the
    assignment of [assessment]. *)
Definition phonemeComponents (phoneme : string) (modalities : list string)
  : list (string * json) :=
  let c0 : list (string * json) := [] in
  let c1 := if arrayIncludes modalities "visual"
            then setProp c0 "visual" (visualComponent phoneme) else c0 in
  let c2 := if arrayIncludes modalities "auditory"
            then setProp c1 "auditory" (auditoryComponent phoneme) else c1 in
  let c3 := if arrayIncludes modalities "kinesthetic"
            then setProp c2 "kinesthetic" kinestheticComponent else c2 in
  let c4 := if arrayIncludes modalities "tactile"
            then setProp c3 "tactile" tactileComponent else c3 in
  setProp c4 "assessment" assessment.

(** The [activity] object of [generatePhonemeActivity]. *)
Definition phonemeActivity (phoneme : string) (modalities : list string) : json :=
  JObject
    [ ("phoneme", JString phoneme);
      ("type", JString "multisensory_practice");
      ("components", JObject (phonemeComponents phoneme modalities)) ].

Definition phonemeActivityReport (phoneme : string) (modalities : list string)
    (activity : json) : string :=
    ("MULTISENSORY PHONEME ACTIVITY" ++ nl ++ nl ++
     "Target Phoneme: /" ++ phoneme ++ "/" ++ nl ++
     "Modalities: " ++ join ", " modalities ++ nl ++ nl ++
     "Activity Structure:" ++ nl ++ JSON.stringifyPretty activity ++ nl ++ nl ++
     "OG Compliance:" ++ nl ++
     "- Follows systematic phonics progression" ++ nl ++
     "- Includes explicit instruction" ++ nl ++
     "- Provides multisensory reinforcement" ++ nl ++
     "- Builds to automatic recognition" ++ nl ++ nl ++
     "Implementation Notes:" ++ nl ++
     "- Always celebrate attempts, not just accuracy" ++ nl ++
     "- Allow multiple practice opportunities" ++ nl ++
     "- Monitor for stress and adjust accordingly" ++ nl ++
     "- Progress only after mastery demonstrated").

Definition generatePhonemeActivity (phoneme : string) (modalities : list string)
  : ToolResponse :=
  textResponse
    (phonemeActivityReport phoneme modalities
                           (phonemeActivity phoneme modalities)).

(** ** review_code_safety *)

Record CodeReview := mkCodeReview {
  cr_issues : list string;
  cr_recommendations : list string;
  cr_isSafe : bool
}.

Definition failureStateIssue : string :=
  "Code may contain failure states or negative language".
Definition failureStateAdvice : string :=
  "Implement positive feedback loops instead of failure states".
Definition timeLimitIssue : string :=
  "Time pressure detected - may cause stress".
Definition timeLimitAdvice : string :=
  "Remove time limits or make them optional/invisible".
Definition accessibilityIssue : string :=
  "Interactive elements may lack accessibility labels".
Definition accessibilityAdvice : string :=
  "Add aria-label attributes to all interactive elements".
Definition reinforcementAdvice : string :=
  "Add positive reinforcement and celebration for user actions".

Definition codeReview (code : string) : CodeReview :=
  let issues0 : list string := [] in
  let recs0 : list string := [] in
  (* failure states *)
  let '(issues1, recs1) :=
    if includes code "fail" || includes code "error" || includes code "wrong"
    then (push issues0 failureStateIssue, push recs0 failureStateAdvice)
    else (issues0, recs0) in
  (* stress-inducing patterns *)
  let '(issues2, recs2) :=
    if includes code "timeout" || includes code "time limit"
    then (push issues1 timeLimitIssue, push recs1 timeLimitAdvice)
    else (issues1, recs1) in
  (* accessibility *)
  let '(issues3, recs3) :=
    if includes code "onClick" && negb (includes code "aria-label")
    then (push issues2 accessibilityIssue, push recs2 accessibilityAdvice)
    else (issues2, recs2) in
  (* positive reinforcement *)
  let hasPositiveReinforcement :=
    includes code "celebrate" || includes code "great" ||
    includes code "nice work" in
  let recs4 :=
    if negb hasPositiveReinforcement
    then push recs3 reinforcementAdvice else recs3 in
  mkCodeReview issues3 recs4 (List.length issues3 =? 0)%nat.

Definition codeSafetyReport (r : CodeReview) : string :=
    ("TRAUMA-INFORMED CODE SAFETY REVIEW" ++ nl ++ nl ++
     (if cr_isSafe r then "✅ CODE IS TRAUMA-SAFE" else "⚠️ SAFETY ISSUES DETECTED") ++
     nl ++ nl ++
     (if (0 <? List.length (cr_issues r))%nat
      then "Issues Found:" ++ nl ++ bullets (cr_issues r) ++ nl ++ nl
      else "") ++
     "Recommendations:" ++ nl ++ bullets (cr_recommendations r) ++ nl ++ nl ++
     "Trauma-Informed Coding Principles:" ++ nl ++
     "- No failure states or negative feedback" ++ nl ++
     "- Child maintains control and agency" ++ nl ++
     "- Multiple pathways to success" ++ nl ++
     "- Celebration of effort over accuracy" ++ nl ++
     "- Stress detection and response" ++ nl ++
     "- Accessibility for all learners").

(** The argument [language] is read (default ['typescript']) and not used. *)
Definition reviewCodeSafety (code : string) (language : option string)
  : ToolResponse :=
  textResponse (codeSafetyReport (codeReview code)).

(** ** Property reads on object literals *)

(** The names that every object literal inherits from [Object.prototype]. *)
Definition objectPrototypeMembers : list string :=
  [ "constructor"; "__defineGetter__"; "__defineSetter__"; "hasOwnProperty";
    "__lookupGetter__"; "__lookupSetter__"; "isPrototypeOf";
    "propertyIsEnumerable"; "toString"; "valueOf"; "__proto__";
    "toLocaleString" ].

(** The result of [obj[key]] on an object literal: the value of an own key,
    a built-in inherited from the prototype (a function, or the prototype
    itself for [__proto__]; always truthy), or [undefined]. *)
Inductive propRead (A : Type) :=
| Own (a : A)
| Inherited
| Undefined.

Arguments Own {A} a.
Arguments Inherited {A}.
Arguments Undefined {A}.

Definition getProp {A : Type} (obj : list (string * A)) (key : string)
  : propRead A :=
  match getOwn obj key with
  | Some a => Own a
  | None => if arrayIncludes objectPrototypeMembers key then Inherited
            else Undefined
  end.

(** ** generate_stress_protocol *)

Record Protocol := mkProtocol {
  detection : list string;
  response : list string;
  code : string
}.

Definition lines (l : list string) : string := join nl l.

Definition behavioral : list (string * Protocol) :=
  [ ("mild",
     mkProtocol
       [ "Slower response times"; "Repeated help requests"; "Shorter responses" ]
       [ "Offer encouragement"; "Provide gentle hints"; "Show progress made" ]
       (nl ++ lines
          [ "if (responseTime > averageResponseTime * 1.5) {";
            "  showEncouragement(" ++ dq ++
              "You're thinking carefully - that's great!" ++ dq ++ ");";
            "  offerHint(currentChallenge);";
            "}" ]));
    ("moderate",
     mkProtocol
       [ "Multiple wrong attempts"; "Requesting to skip";
         "Visible frustration cues" ]
       [ "Switch to easier content"; "Offer break"; "Provide comfort" ]
       (nl ++ lines
          [ "if (consecutiveStruggles >= 3) {";
            "  switchToComfortMode();";
            "  showMessage(" ++ dq ++ "Let's try something fun together!" ++ dq ++ ");";
            "  offerBreak();";
            "}" ]));
    ("high",
     mkProtocol
       [ "Attempting to quit"; "Silence after prompts"; "Stress behaviors" ]
       [ "Immediate comfort mode"; "Breathing exercises";
         "End session positively" ]
       (nl ++ lines
          [ "if (detectedHighStress()) {";
            "  immediateComfortMode();";
            "  showBreathingExercise();";
            "  celebrateWhatWasAccomplished();";
            "}" ])) ].

Definition physiological : list (string * Protocol) :=
  [ ("mild",
     mkProtocol
       [ "HRV decrease 10-20%"; "Heart rate increase 10-15%" ]
       [ "Gentle pacing adjustment"; "Calming visual cues" ]
       (nl ++ lines
          [ "if (hrv < baseline * 0.8) {";
            "  adjustPacing(" ++ dq ++ "slower" ++ dq ++ ");";
            "  showCalmingVisuals();";
            "}" ]));
    ("moderate",
     mkProtocol
       [ "HRV decrease 20-30%"; "Heart rate increase 15-25%" ]
       [ "Pause activity"; "Breathing guidance"; "Comfort content" ]
       (nl ++ lines
          [ "if (heartRate > baseline * 1.2) {";
            "  pauseCurrentActivity();";
            "  startBreathingGuide();";
            "  showComfortCharacter();";
            "}" ]));
    ("high",
     mkProtocol
       [ "HRV decrease >30%"; "Heart rate increase >25%" ]
       [ "Immediate stop"; "Full comfort mode"; "Recovery focus" ]
       (nl ++ lines
          [ "if (stressLevel === " ++ dq ++ "CRITICAL" ++ dq ++ ") {";
            "  stopAllActivities();";
            "  activateFullComfortMode();";
            "  focusOnRecovery();";
            "  notifyParent();";
            "}" ])) ].

Definition protocols : list (string * list (string * Protocol)) :=
  [ ("behavioral", behavioral); ("physiological", physiological) ].

Definition invalidProtocolParameters : string :=
  "❌ Invalid protocol parameters. TriggerType must be 'behavioral' or 'physiological', severity must be 'mild', 'moderate', or 'high'.".

Definition protocolReport (triggerType severity : string) (protocol : Protocol)
  : string :=
  "STRESS DETECTION & RESPONSE PROTOCOL" ++ nl ++ nl ++
  "Trigger: " ++ triggerType ++ " (" ++ severity ++ ")" ++ nl ++ nl ++
  "Detection Indicators:" ++ nl ++ bullets (detection protocol) ++ nl ++ nl ++
  "Response Actions:" ++ nl ++ bullets (response protocol) ++ nl ++ nl ++
  "Implementation Code:" ++ nl ++ "```typescript" ++ code protocol ++ nl ++
  "```" ++ nl ++ nl ++
  "Key Principles:" ++ nl ++
  "- Child safety is paramount" ++ nl ++
  "- Recovery before continuation" ++ nl ++
  "- Positive framing of all interventions" ++ nl ++
  "- Parent notification for high-stress events" ++ nl ++
  "- Learning from stress patterns to prevent future episodes".

Section StressProtocol.

(** [builtinTruthy m k]: the member [m] of [Object.prototype] has a truthy
    property [k].  The built-ins are not part of the program; the handler
    only depends on them through this test. *)
Variable builtinTruthy : string -> string -> bool.

(** The outcome of [protocols[triggerType]?.[severity]]. *)
Inductive selected :=
| SelProtocol (p : Protocol)
| SelBuiltin
| SelNone.

Definition selectProtocol (triggerType severity : string) : selected :=
  match getProp protocols triggerType with
  | Undefined => SelNone
  | Own table =>
      match getProp table severity with
      | Own p => SelProtocol p
      | Inherited => SelBuiltin
      | Undefined => SelNone
      end
  | Inherited =>
      if builtinTruthy triggerType severity then SelBuiltin else SelNone
  end.

(** A selected built-in is truthy and has no [detection] property, so the
    report raises on [protocol.detection.map]. *)
Definition generateStressProtocol (triggerType severity : string) : outcome :=
  match selectProtocol triggerType severity with
  | SelNone => Returns (textResponse invalidProtocolParameters)
  | SelProtocol protocol =>
      Returns (textResponse (protocolReport triggerType severity protocol))
  | SelBuiltin => TypeError
  end.

End StressProtocol.

(** ** validate_engagement_safety *)

Definition redFlags : list string :=
  [ "score"; "points"; "leaderboard"; "competition"; "timer"; "deadline";
    "fail"; "lose"; "wrong"; "mistake"; "try again"; "beat"; "win";
    "achievement"; "badge"; "unlock"; "earn"; "reward points" ].

Definition safeAlternatives : list string :=
  [ "progress"; "growth"; "discovery"; "exploration"; "help"; "support";
    "learn"; "practice"; "try"; "explore"; "discover"; "create" ].

Definition pressuringElement (flag : string) : string :=
  "Contains potentially pressuring element: " ++ dq ++ flag ++ dq.

Definition scanRedFlags (mechanicLower : string) (issues : list string)
  : list string :=
  fold_left
    (fun issues flag =>
       if includes mechanicLower flag
       then push issues (pressuringElement flag) else issues)
    redFlags issues.

Definition extrinsicIssue : string :=
  "Uses extrinsic rewards which may undermine intrinsic motivation".
Definition extrinsicAdvice : string :=
  "Focus on intrinsic motivators: curiosity, mastery, autonomy, purpose".
Definition comparisonIssue : string :=
  "Includes comparison which can trigger shame in struggling readers".
Definition comparisonAdvice : string :=
  "Focus on individual growth and personal achievement".
Definition timePressureIssue : string :=
  "May create time pressure which causes stress in dyslexic learners".
Definition timePressureAdvice : string :=
  "Remove time elements or make them invisible/optional".

Definition positiveSuggestions : list string :=
  [ "Consider adding story elements that create emotional investment";
    "Ensure child has agency and control over the experience";
    "Connect to helping others or solving meaningful problems" ].

Record EngagementReview := mkEngagementReview {
  er_issues : list string;
  er_recommendations : list string;
  er_isSafe : bool
}.

Definition engagementReview (mechanic : string) : EngagementReview :=
  let mechanicLower := toLowerCase mechanic in
  let recs0 : list string := [] in
  (* problematic engagement patterns *)
  let issues1 := scanRedFlags mechanicLower [] in
  (* extrinsic motivators *)
  let '(issues2, recs2) :=
    if includes mechanicLower "reward" || includes mechanicLower "prize"
    then (push issues1 extrinsicIssue, push recs0 extrinsicAdvice)
    else (issues1, recs0) in
  (* comparison-based elements *)
  let '(issues3, recs3) :=
    if includes mechanicLower "compare" || includes mechanicLower "better than"
    then (push issues2 comparisonIssue, push recs2 comparisonAdvice)
    else (issues2, recs2) in
  (* time pressure *)
  let '(issues4, recs4) :=
    if includes mechanicLower "time" || includes mechanicLower "speed" ||
       includes mechanicLower "fast"
    then (push issues3 timePressureIssue, push recs3 timePressureAdvice)
    else (issues3, recs3) in
  (* positive recommendations *)
  let recs5 :=
    if (List.length issues4 =? 0)%nat
    then fold_left push positiveSuggestions recs4 else recs4 in
  mkEngagementReview issues4 recs5 (List.length issues4 =? 0)%nat.

Definition engagementSafetyReport (mechanic context : string)
    (r : EngagementReview) : string :=
    ("ENGAGEMENT SAFETY VALIDATION" ++ nl ++ nl ++
     "Mechanic: " ++ dq ++ mechanic ++ dq ++ nl ++
     "Context: " ++ context ++ nl ++ nl ++
     (if er_isSafe r
      then "✅ TRAUMA-SAFE ENGAGEMENT" else "⚠️ POTENTIAL ISSUES DETECTED") ++
     nl ++ nl ++
     (if (0 <? List.length (er_issues r))%nat
      then "Issues Found:" ++ nl ++ bullets (er_issues r) ++ nl ++ nl
      else "") ++
     "Recommendations:" ++ nl ++ bullets (er_recommendations r) ++ nl ++ nl ++
     "Safe Engagement Principles:" ++ nl ++
     "- Intrinsic motivation (curiosity, mastery, purpose)" ++ nl ++
     "- Child agency and control" ++ nl ++
     "- No performance pressure or comparison" ++ nl ++
     "- Story-driven emotional investment" ++ nl ++
     "- Multiple pathways to success" ++ nl ++
     "- Celebration of effort over accuracy" ++ nl ++ nl ++
     "Trauma-Informed Alternatives:" ++ nl ++
     join nl (map (fun alt => "- Use " ++ dq ++ alt ++ dq ++
                              " instead of pressure-based language")
                  safeAlternatives)).

Definition validateEngagementSafety (mechanic : string) (context : option string)
  : ToolResponse :=
  let context := orDefault context "" in
  textResponse (engagementSafetyReport mechanic context (engagementReview mechanic)).

(** ** generate_engagement_activity *)

Record ThemeDescriptor := mkTheme {
  setting : string;
  character : string;
  motivation : string;
  language : string
}.

Definition themes : list (string * ThemeDescriptor) :=
  [ ("dragons",
     mkTheme "Ancient dragon linguistics academy"
             "Dragon language expert"
             "Decode ancient dragon communication patterns"
             "mystical, adventurous");
    ("space",
     mkTheme "Deep space communication center"
             "Alien linguistics specialist"
             "Establish first contact through sound patterns"
             "scientific, exploratory");
    ("magic",
     mkTheme "Academy of magical linguistics"
             "Spell-sound researcher"
             "Master sound frequencies for spell casting"
             "mystical, scholarly");
    ("animals",
     mkTheme "Wildlife communication research station"
             "Animal language expert"
             "Decode animal communication systems"
             "naturalistic, caring");
    ("adventure",
     mkTheme "Remote expedition base camp"
             "Expedition leader"
             "Navigate using ancient symbol systems"
             "adventurous but mature");
    ("mystery",
     mkTheme "International detective agency"
             "Senior investigator partner"
             "Crack coded messages in ongoing cases"
             "professional, investigative") ].

(** [themes[theme]] *)
Definition selectedTheme (theme : string) : propRead ThemeDescriptor :=
  getProp themes theme.

(** [stressLevel === 'high' ? 'simple' : stressLevel === 'medium' ? 'moderate' : 'rich'] *)
Definition complexity (stressLevel : string) : string :=
  if String.eqb stressLevel "high" then "simple"
  else if String.eqb stressLevel "medium" then "moderate"
  else "rich".

(** A property whose value may be [undefined]: [JSON.stringify] leaves such a
    property out, and a template literal prints it as [undefined]. *)
Definition optProp (k : string) (v : option string) : list (string * json) :=
  match v with
  | Some s => [(k, JString s)]
  | None => []
  end.

Definition show (v : option string) : string :=
  match v with
  | Some s => s
  | None => "undefined"
  end.

(** [activity.story], from the four fields read off the selected theme. *)
Definition story (setting character motivation language : option string)
    (phoneme stressLevel : string) : json :=
  JObject
    (optProp "setting" setting ++
     optProp "character" character ++
     [ ("hook",
        JString (show motivation ++ " by analyzing the /" ++ phoneme ++
                 "/ sound frequency"));
       ("complexity", JString (complexity stressLevel));
       ("ageAppropriate",
        JString "Designed for 12-year-old with foundational skill needs") ] ++
     optProp "languageStyle" language)%list.

Definition touchInteraction (phoneme : string) : json :=
  JObject
    [ ("symbolTracing",
       JString ("Calibrate symbol recognition by tracing the /" ++ phoneme ++
                "/ pattern"));
      ("systemNavigation",
       JString "Navigate interface elements to analyze communication data");
      ("patternMatching",
       JString "Connect symbol fragments using precise touch coordination");
      ("frequencyTuning",
       JString "Adjust audio frequencies through touch interface controls") ].

Definition voiceInteraction (phoneme : string) : json :=
  JObject
    [ ("frequencyAnalysis",
       JString ("Produce /" ++ phoneme ++
                "/ sound to match detected frequency patterns"));
      ("voiceAuthentication",
       JString "Voice recognition system requires clear pronunciation");
      ("communicationProtocol",
       JString "Establish contact using proper sound frequencies");
      ("audioTesting",
       JString "Test voice clarity for communication system compatibility") ].

Definition cameraInteraction (phoneme : string) : json :=
  JObject
    [ ("symbolDocumentation",
       JString "Document real-world examples of symbolic patterns");
      ("fieldResearch",
       JString ("Capture evidence of /" ++ phoneme ++ "/ symbols in environment"));
      ("progressArchiving",
       JString "Create visual record of decoding achievements");
      ("evidenceCollection",
       JString "Photograph discoveries for case documentation") ].

Definition microphoneInteraction : json :=
  JObject
    [ ("frequencyRecording", JString "Record voice patterns for system analysis");
      ("audioCustomization",
       JString "Personalize communication system voice settings");
      ("soundEngineering",
       JString "Create audio profiles for different scenarios");
      ("breathingCalibration",
       JString "Calibrate focus enhancement through breathing patterns") ].

Definition bluetoothInteraction : json :=
  JObject
    [ ("deviceSync", JString "Connect with specialized learning devices");
      ("dataSharing", JString "Share progress with research team");
      ("collaborativeMode", JString "Work with other researchers remotely") ].

(** [activity.interactions] after the five guarded assignments. *)
Definition interactions (phoneme : string) (inputMethods : list string)
  : list (string * json) :=
  let i0 : list (string * json) := [] in
  let i1 := if arrayIncludes inputMethods "touch"
            then setProp i0 "touch" (touchInteraction phoneme) else i0 in
  let i2 := if arrayIncludes inputMethods "voice"
            then setProp i1 "voice" (voiceInteraction phoneme) else i1 in
  let i3 := if arrayIncludes inputMethods "camera"
            then setProp i2 "camera" (cameraInteraction phoneme) else i2 in
  let i4 := if arrayIncludes inputMethods "microphone"
            then setProp i3 "microphone" microphoneInteraction else i3 in
  if arrayIncludes inputMethods "bluetooth"
  then setProp i4 "bluetooth" bluetoothInteraction else i4.

Definition engagement : json :=
  JObject
    [ ("intrinsicMotivators",
       JArray [ JString "Curiosity about story outcome";
                JString "Helping character achieve goal";
                JString "Exploring new story elements";
                JString "Creating personalized content" ]);
      ("avoidedExtrinsics",
       JArray [ JString "No time pressure";
                JString "No scoring/grading";
                JString "No comparison to others";
                JString "No failure states" ]) ].

Definition stressAdaptations : json :=
  JObject
    [ ("simplifiedInterface",
       JString "Reduce cognitive load with cleaner interface design");
      ("mentorSupport",
       JString "Expert mentor provides additional guidance and encouragement");
      ("focusEnhancement",
       JString "Activate concentration support systems and calming protocols");
      ("autonomousControl",
       JString "Full user control over pacing and session management") ].

Definition engagementReport (phoneme theme stressLevel : string)
    (story : json) (interactions : list (string * json)) : string :=
  "AGE-APPROPRIATE ENGAGEMENT ACTIVITY (Age 12, Foundational Skills)" ++
  nl ++ nl ++
  "Phoneme: /" ++ phoneme ++ "/" ++ nl ++
  "Theme: " ++ theme ++ nl ++
  "Stress Level: " ++ stressLevel ++ nl ++ nl ++
  "Story Framework:" ++ nl ++ JSON.stringifyPretty story ++ nl ++ nl ++
  "Age-Appropriate Interactions:" ++ nl ++
  JSON.stringifyPretty (JObject interactions) ++ nl ++ nl ++
  "Engagement Strategy:" ++ nl ++ JSON.stringifyPretty engagement ++ nl ++ nl ++
  (if String.eqb stressLevel "high"
   then "Stress Adaptations:" ++ nl ++ JSON.stringifyPretty stressAdaptations ++
        nl ++ nl
   else "") ++
  "DIGNITY-PRESERVING DESIGN:" ++ nl ++
  "- Language treats user as capable young adult" ++ nl ++
  "- Context provides sophisticated framework for basic skills" ++ nl ++
  "- Visual design avoids childish aesthetics" ++ nl ++
  "- Peer interaction safe (looks like advanced training)" ++ nl ++
  "- Self-concept protected through expert apprentice role" ++ nl ++ nl ++
  "DEVELOPMENTAL APPROPRIATENESS:" ++ nl ++
  "- Acknowledges 12-year-old cognitive abilities" ++ nl ++
  "- Respects emotional maturity needs  " ++ nl ++
  "- Provides foundation skills without shame" ++ nl ++
  "- Maintains social dignity with peers/family" ++ nl ++
  "- Future-oriented (builds toward advanced abilities)".

(** Reading a field of [undefined] raises; a built-in inherited from the
    prototype has none of the four fields. *)
Definition generateEngagementActivity (phoneme theme : string)
    (inputMethods : list string) (stressLevel : option string) : outcome :=
  let stressLevel := orDefault stressLevel "low" in
  match selectedTheme theme with
  | Undefined => TypeError
  | Own t =>
      Returns (textResponse
        (engagementReport phoneme theme stressLevel
           (story (Some (setting t)) (Some (character t)) (Some (motivation t))
                  (Some (language t)) phoneme stressLevel)
           (interactions phoneme inputMethods)))
  | Inherited =>
      Returns (textResponse
        (engagementReport phoneme theme stressLevel
           (story None None None None phoneme stressLevel)
           (interactions phoneme inputMethods)))
  end.

(** ** generate_dyslexia_ui *)

Module ColorScheme.
Record t := mk { bg : string; border : string; text : string }.
End ColorScheme.

Definition getColorScheme (intent : string) : ColorScheme.t :=
  if String.eqb intent "comfort"
  then ColorScheme.mk "bg-pink-100" "border-pink-200" "text-pink-900"
  else if String.eqb intent "celebration"
  then ColorScheme.mk "bg-blue-100" "border-blue-200" "text-blue-900"
  else if String.eqb intent "secondary"
  then ColorScheme.mk "bg-gray-100" "border-gray-200" "text-gray-900"
  else ColorScheme.mk "bg-green-100" "border-green-200" "text-green-900".

Definition fontClass : string :=
  "font-['OpenDyslexic,Verdana,Arial,sans-serif']".

Definition buttonComponent (colors : ColorScheme.t) (content : string) : string :=
  nl ++ lines
    [ "<button ";
      "  className=" ++ dq;
      "    " ++ fontClass ++ " ";
      "    text-xl px-8 py-4 rounded-lg";
      "    " ++ ColorScheme.bg colors ++ " hover:" ++
        replace (ColorScheme.bg colors) "100" "200";
      "    " ++ ColorScheme.border colors ++ " border-2";
      "    " ++ ColorScheme.text colors;
      "    transition-colors duration-200";
      "    focus:outline-none focus:ring-4 focus:ring-opacity-50";
      "    min-h-[60px] min-w-[120px]";
      "    tracking-wide";
      "  " ++ dq;
      "  aria-label=" ++ dq ++ content ++ dq;
      ">";
      "  " ++ content;
      "</button>" ].

Definition textComponent (colors : ColorScheme.t) (content : string) : string :=
  nl ++ lines
    [ "<p ";
      "  className=" ++ dq;
      "    " ++ fontClass;
      "    text-lg leading-relaxed tracking-wide";
      "    " ++ ColorScheme.text colors;
      "    max-w-prose";
      "  " ++ dq;
      ">";
      "  " ++ content;
      "</p>" ].

Definition inputComponent (colors : ColorScheme.t) (content : string) : string :=
  nl ++ lines
    [ "<input";
      "  className=" ++ dq;
      "    " ++ fontClass;
      "    text-lg px-4 py-3 rounded-lg";
      "    border-2 " ++ ColorScheme.border colors;
      "    focus:border-blue-300 focus:ring-2 focus:ring-blue-200";
      "    bg-cream-50 min-h-[50px]";
      "    tracking-wide";
      "  " ++ dq;
      "  placeholder=" ++ dq ++ content ++ dq;
      "  aria-label=" ++ dq ++ content ++ dq;
      "/>" ].

Definition cardComponent (colors : ColorScheme.t) (content : string) : string :=
  nl ++ lines
    [ "<div ";
      "  className=" ++ dq;
      "    " ++ ColorScheme.bg colors ++ " " ++ ColorScheme.border colors ++
        " border-2 rounded-lg";
      "    p-6 shadow-sm";
      "    " ++ fontClass;
      "  " ++ dq;
      ">";
      "  <div className=" ++ dq ++ "text-lg " ++ ColorScheme.text colors ++
        " leading-relaxed tracking-wide" ++ dq ++ ">";
      "    " ++ content;
      "  </div>";
      "</div>" ].

(** The [switch] on [componentType]: it has no [default], so [component]
    keeps its initial value [''] for any other type. *)
Definition component (componentType : string) (colors : ColorScheme.t)
    (content : string) : string :=
  if String.eqb componentType "button" then buttonComponent colors content
  else if String.eqb componentType "text" then textComponent colors content
  else if String.eqb componentType "input" then inputComponent colors content
  else if String.eqb componentType "card" then cardComponent colors content
  else "".

Definition featureNotes : string :=
  "Features:" ++ nl ++
  "- OpenDyslexic font with fallbacks" ++ nl ++
  "- High contrast colors" ++ nl ++
  "- Large touch targets (min 44px)" ++ nl ++
  "- Generous spacing and padding" ++ nl ++
  "- Proper ARIA labels" ++ nl ++
  "- Focus indicators".

Definition dyslexiaUIReport (componentType component : string) : string :=
  "Generated dyslexia-friendly " ++ componentType ++ " component:" ++
  nl ++ nl ++ component ++ nl ++ nl ++ featureNotes.

Definition generateDyslexiaUI (componentType content : string)
    (intent : option string) : ToolResponse :=
  let intent := orDefault intent "primary" in
  let colors := getColorScheme intent in
  textResponse
    (dyslexiaUIReport componentType (component componentType colors content)).

(** ** The text and number handlers over the host's functions *)

(** The three handlers that lower-case their text, and the one that reads a
    number, written over the functions of the JavaScript host instead of the
    ASCII and integer ones of [Js]: whatever [toLowerCase], [JSON.stringify]
    and the number-to-string conversion do on a text, a value or a number,
    the handlers use them as below.  The definitions of the same names
    outside this module are these at the functions of [Js]. *)
Module Host.

Section Functions.

(** [String.prototype.toLowerCase], on every text. *)
Variable toLowerCase : string -> string.

(** The values that a request can carry as [activity], and
    [JSON.stringify] on them. *)
Variable Activity : Type.
Variable stringify : Activity -> string.

(** The numbers.  [integerValue n] is [Some z] when [n] is the integer [z]
    and [None] for a fractional number, [NaN] and the infinities;
    [numberToString] is the conversion of a template literal. *)
Variable Number : Type.
Variable integerValue : Number -> option Z.
Variable numberToString : Number -> string.

(** *** review_trauma_content *)

Definition scanAvoid (content : string) (issues : list string) : list string :=
  fold_left
    (fun issues word =>
       if includes (toLowerCase content) (toLowerCase word)
       then push issues (triggeringWord word) else issues)
    TRAUMA_INFORMED_PRINCIPLES.avoid issues.

Definition scanPressure (content : string) (issues : list string) : list string :=
  fold_left
    (fun issues word =>
       if includes (toLowerCase content) word
       then push issues (pressureWord word) else issues)
    pressureWords issues.

Definition traumaReview (content : string) : TraumaReview :=
  let issues := scanPressure content (scanAvoid content []) in
  let alternatives :=
    if (0 <? List.length issues)%nat then positiveAlternatives else [] in
  mkTraumaReview issues alternatives (List.length issues =? 0)%nat.

Definition reviewTraumaContent (content : string) (context : option string)
  : ToolResponse :=
  let context := orDefault context "" in
  textResponse (traumaReport content context (traumaReview content)).

(** *** validate_engagement_safety *)

Definition engagementReview (mechanic : string) : EngagementReview :=
  let mechanicLower := toLowerCase mechanic in
  let recs0 : list string := [] in
  (* problematic engagement patterns *)
  let issues1 := scanRedFlags mechanicLower [] in
  (* extrinsic motivators *)
  let '(issues2, recs2) :=
    if includes mechanicLower "reward" || includes mechanicLower "prize"
    then (push issues1 extrinsicIssue, push recs0 extrinsicAdvice)
    else (issues1, recs0) in
  (* comparison-based elements *)
  let '(issues3, recs3) :=
    if includes mechanicLower "compare" || includes mechanicLower "better than"
    then (push issues2 comparisonIssue, push recs2 comparisonAdvice)
    else (issues2, recs2) in
  (* time pressure *)
  let '(issues4, recs4) :=
    if includes mechanicLower "time" || includes mechanicLower "speed" ||
       includes mechanicLower "fast"
    then (push issues3 timePressureIssue, push recs3 timePressureAdvice)
    else (issues3, recs3) in
  (* positive recommendations *)
  let recs5 :=
    if (List.length issues4 =? 0)%nat
    then fold_left push positiveSuggestions recs4 else recs4 in
  mkEngagementReview issues4 recs5 (List.length issues4 =? 0)%nat.

Definition validateEngagementSafety (mechanic : string) (context : option string)
  : ToolResponse :=
  let context := orDefault context "" in
  textResponse (engagementSafetyReport mechanic context (engagementReview mechanic)).

(** *** validate_og_activity *)

(** [Object.values(OG_CURRICULUM)[targetLevel - 1]].  Only an integer
    indexes an element: for a fractional number, [NaN] or an infinity the
    difference is no array index, and the read gives [undefined]. *)
Definition levelData (targetLevel : Number) : option CurriculumLevel :=
  match integerValue targetLevel with
  | Some z => at_index (values OG_CURRICULUM) (z - 1)
  | None => None
  end.

(** The [validation] object once every field has its final value.
    [activityString] is [JSON.stringify(activity).toLowerCase()]. *)
Definition ogValidation (activityString : string) (targetLevel : Number)
    (level : CurriculumLevel) : OGValidation :=
  let modalityCount :=
    List.length (filter (fun m => includes activityString m) modalityNames) in
  let isMultisensory := (2 <=? modalityCount)%nat in
  let issues1 :=
    if negb isMultisensory
    then push [] "Activity should include multiple sensory modalities" else [] in
  let recommendations :=
    if negb isMultisensory
    then push [] "Add visual, auditory, and kinesthetic elements" else [] in
  let '(hasPhonemesFocus, issues2) :=
    match phonemes level with
    | Some ps =>
        let found :=
          existsb (fun p => includes activityString (toLowerCase p)) ps in
        (found,
         if negb found
         then push issues1
                ("Activity should focus on level " ++ numberToString targetLevel ++
                 " phonemes: " ++ join ", " ps)
         else issues1)
    | None => (false, issues1)
    end in
  mkOGValidation true isMultisensory hasPhonemesFocus
                 (isMultisensory && hasPhonemesFocus) issues2 recommendations.

Definition ogReport (targetLevel : Number) (level : CurriculumLevel)
    (validation : OGValidation) : string :=
  "ORTON-GILLINGHAM ACTIVITY VALIDATION" ++ nl ++ nl ++
  "Target Level: " ++ numberToString targetLevel ++ " - " ++ focus level ++
  nl ++ nl ++
  (if meetsLevel validation then "✅ OG COMPLIANT" else "❌ NEEDS IMPROVEMENT") ++
  nl ++ nl ++ "Validation Results:" ++ nl ++
  "- Sequential: " ++ mark (isSequential validation) ++ nl ++
  "- Multisensory: " ++ mark (isMultisensory validation) ++ nl ++
  "- Phoneme Focus: " ++ mark (hasPhonemesFocus validation) ++ nl ++ nl ++
  (if (0 <? List.length (og_issues validation))%nat
   then "Issues:" ++ nl ++ bullets (og_issues validation) ++ nl ++ nl ++
        "Recommendations:" ++ nl ++ bullets (og_recommendations validation)
   else "Activity meets OG standards!").

Definition invalidLevel (targetLevel : Number) : string :=
  "❌ Invalid OG level: " ++ numberToString targetLevel ++ ". Must be 1-3.".

(** [activity] is [None] when the argument is absent ([undefined]):
    [JSON.stringify(undefined)] is [undefined], and calling [toLowerCase]
    on it raises. *)
Definition validateOGActivity (activity : option Activity)
    (targetLevel : Number) : outcome :=
  match levelData targetLevel with
  | None => Returns (textResponse (invalidLevel targetLevel))
  | Some level =>
      match activity with
      | None => TypeError
      | Some a =>
          let activityString := toLowerCase (stringify a) in
          Returns (textResponse
                     (ogReport targetLevel level
                               (ogValidation activityString targetLevel level)))
      end
  end.

End Functions.

End Host.

(** Some numbers for the examples, with their integer value and their
    conversion to a string. *)
Inductive sampleNumber :=
| Zero | One | Two | Three | Four
| OneHalf | ThreeAndAHalf | Sextillion | NotANumber | PlusInfinity.

Definition sampleIntegerValue (n : sampleNumber) : option Z :=
  match n with
  | Zero => Some 0%Z
  | One => Some 1%Z
  | Two => Some 2%Z
  | Three => Some 3%Z
  | Four => Some 4%Z
  | Sextillion => Some (10 ^ 21)%Z
  | OneHalf | ThreeAndAHalf | NotANumber | PlusInfinity => None
  end.

Definition sampleNumberToString (n : sampleNumber) : string :=
  match n with
  | Zero => "0"
  | One => "1"
  | Two => "2"
  | Three => "3"
  | Four => "4"
  | OneHalf => "0.5"
  | ThreeAndAHalf => "3.5"
  | Sextillion => "1e+21"
  | NotANumber => "NaN"
  | PlusInfinity => "Infinity"
  end.

(** Every phoneme of the curriculum. *)
Definition curriculumPhonemes : list string :=
  flat_map (fun l => match phonemes l with Some ps => ps | None => [] end)
           (values OG_CURRICULUM).

(** ** The tool catalog ([setupTools]) *)

Module Catalog.

(** [items: { type, enum }] of an array property. *)
Record ItemSchema := mkItems { itemType : string; itemEnum : list string }.

(** One entry of [properties]; [enum] and [items] are absent for most. *)
Record PropertySchema := mkProperty {
  type : string;
  enum : option (list string);
  items : option ItemSchema;
  description : string
}.

Record InputSchema := mkInputSchema {
  schemaType : string;
  properties : list (string * PropertySchema);
  required : list string
}.

Record Tool := mkTool {
  name : string;
  toolDescription : string;
  inputSchema : InputSchema
}.

Definition plain (type description : string) : PropertySchema :=
  mkProperty type None None description.

Definition enumerated (values : list string) (description : string)
  : PropertySchema :=
  mkProperty "string" (Some values) None description.

Definition arrayOf (values : list string) (description : string)
  : PropertySchema :=
  mkProperty "array" None (Some (mkItems "string" values)) description.

(** The [tools] array that the list handler returns. *)
Definition tools : list Tool :=
  [ mkTool "generate_dyslexia_ui"
      "Generate dyslexia-friendly UI components"
      (mkInputSchema "object"
         [ ("componentType",
            enumerated [ "button"; "text"; "input"; "card" ]
                       "Type of UI component to generate");
           ("content", plain "string" "Content for the component");
           ("intent",
            enumerated [ "primary"; "secondary"; "comfort"; "celebration" ]
                       "Visual intent of the component") ]
         [ "componentType"; "content" ]);
    mkTool "review_trauma_content"
      "Review content for trauma-informed language"
      (mkInputSchema "object"
         [ ("content", plain "string" "Text content to review");
           ("context",
            plain "string" "Context where this content appears (optional)") ]
         [ "content" ]);
    mkTool "validate_og_activity"
      "Validate activity against Orton-Gillingham principles"
      (mkInputSchema "object"
         [ ("activity", plain "object" "Activity object to validate");
           ("targetLevel", plain "number" "Target OG level (1-5)") ]
         [ "activity"; "targetLevel" ]);
    mkTool "generate_phoneme_activity"
      "Generate multisensory phoneme practice activity"
      (mkInputSchema "object"
         [ ("phoneme", plain "string" "Target phoneme to practice");
           ("modalities",
            arrayOf [ "visual"; "auditory"; "kinesthetic"; "tactile" ]
                    "Learning modalities to include") ]
         [ "phoneme"; "modalities" ]);
    mkTool "review_code_safety"
      "Review code for trauma-informed principles"
      (mkInputSchema "object"
         [ ("code", plain "string" "Code to review");
           ("language", plain "string" "Programming language") ]
         [ "code" ]);
    mkTool "generate_stress_protocol"
      "Generate stress detection and response protocol"
      (mkInputSchema "object"
         [ ("triggerType",
            enumerated [ "behavioral"; "physiological"; "performance" ]
                       "Type of stress trigger to handle");
           ("severity",
            enumerated [ "mild"; "moderate"; "high" ] "Stress severity level") ]
         [ "triggerType"; "severity" ]);
    mkTool "generate_engagement_activity"
      "Generate intrinsically motivating learning activity"
      (mkInputSchema "object"
         [ ("phoneme", plain "string" "Target phoneme to practice");
           ("theme",
            enumerated [ "dragons"; "space"; "magic"; "animals"; "adventure";
                         "mystery" ]
                       "Story theme for engagement");
           ("inputMethods",
            arrayOf [ "touch"; "voice"; "camera"; "microphone"; "bluetooth" ]
                    "Available device capabilities");
           ("stressLevel",
            enumerated [ "low"; "medium"; "high" ]
                       "Current child stress level from Whoop") ]
         [ "phoneme"; "theme"; "inputMethods" ]);
    mkTool "validate_engagement_safety"
      "Check if engagement mechanic might cause trauma or pressure"
      (mkInputSchema "object"
         [ ("mechanic", plain "string" "Engagement mechanic to validate");
           ("context", plain "string" "Context where mechanic would be used") ]
         [ "mechanic" ]) ].

Definition toolNames : list string := map name tools.

(** The entry of a tool name, if the catalog has one. *)
Definition find (toolName : string) : option Tool :=
  List.find (fun t => String.eqb (name t) toolName) tools.

End Catalog.

(** ** The arguments object of a call *)

(** A value of one of the four JSON types that the catalog declares.  An
    object-typed field ([activity]) may hold any JSON value: the handler
    only serializes it. *)
Inductive argValue :=
| AString (s : string)
| ANumber (z : Z)
| AObject (j : json)
| AArray (l : list string).

(** The [arguments] of a request, read through the field names that the
    handlers destructure.  A field is absent ([None], that is [undefined])
    or holds a value of the JSON type the catalog declares for it; values of
    another type are outside the embedding. *)
Module Args.

Record t := mk {
  componentType : option string;
  content : option string;
  intent : option string;
  context : option string;
  activity : option json;
  targetLevel : option Z;
  phoneme : option string;
  modalities : option (list string);
  code : option string;
  language : option string;
  triggerType : option string;
  severity : option string;
  theme : option string;
  inputMethods : option (list string);
  stressLevel : option string;
  mechanic : option string
}.

(** The object [{}]. *)
Definition empty : t :=
  mk None None None None None None None None None None None None None None
     None None.

(** [args[key]] for the sixteen field names; any other key is absent. *)
Definition field (a : t) (key : string) : option argValue :=
  if String.eqb key "componentType" then option_map AString (componentType a)
  else if String.eqb key "content" then option_map AString (content a)
  else if String.eqb key "intent" then option_map AString (intent a)
  else if String.eqb key "context" then option_map AString (context a)
  else if String.eqb key "activity" then option_map AObject (activity a)
  else if String.eqb key "targetLevel" then option_map ANumber (targetLevel a)
  else if String.eqb key "phoneme" then option_map AString (phoneme a)
  else if String.eqb key "modalities" then option_map AArray (modalities a)
  else if String.eqb key "code" then option_map AString (code a)
  else if String.eqb key "language" then option_map AString (language a)
  else if String.eqb key "triggerType" then option_map AString (triggerType a)
  else if String.eqb key "severity" then option_map AString (severity a)
  else if String.eqb key "theme" then option_map AString (theme a)
  else if String.eqb key "inputMethods" then option_map AArray (inputMethods a)
  else if String.eqb key "stressLevel" then option_map AString (stressLevel a)
  else if String.eqb key "mechanic" then option_map AString (mechanic a)
  else None.

End Args.

(** ** The handlers on the arguments object, and the dispatcher *)

(** How a request ends: the response, a [TypeError] raised while a handler
    runs, or the [Error] that the dispatcher throws.  The handlers are
    [async], so a raise is the rejection of the returned promise. *)
Inductive callResult :=
| Responds (r : ToolResponse)
| RaisesTypeError
| RaisesError (message : string).

Definition ofOutcome (o : outcome) : callResult :=
  match o with
  | Returns r => Responds r
  | TypeError => RaisesTypeError
  end.

(** [activity] of [generatePhonemeActivity] when [phoneme] may be
    [undefined]: [JSON.stringify] then leaves the [phoneme] key out. *)
Definition phonemeActivityOf (phoneme : option string) (modalities : list string)
  : json :=
  JObject
    (optProp "phoneme" phoneme ++
     [ ("type", JString "multisensory_practice");
       ("components", JObject (phonemeComponents (show phoneme) modalities)) ])%list.

Module Handler.

Section Handlers.

Variable builtinTruthy : string -> string -> bool.

(** Each handler starts by destructuring [args]; this raises when [args] is
    [undefined].  A field that only goes into template literals or property
    keys is read through [show]: there [undefined] prints as the text
    [undefined]. *)

Definition generateDyslexiaUI (args : option Args.t) : callResult :=
  match args with
  | None => RaisesTypeError
  | Some a =>
      Responds (generateDyslexiaUI (show (Args.componentType a))
                                   (show (Args.content a)) (Args.intent a))
  end.

(** [content.toLowerCase()] raises on [undefined]. *)
Definition reviewTraumaContent (args : option Args.t) : callResult :=
  match args with
  | None => RaisesTypeError
  | Some a =>
      match Args.content a with
      | None => RaisesTypeError
      | Some content => Responds (reviewTraumaContent content (Args.context a))
      end
  end.

(** [undefined - 1] is [NaN], which indexes no level. *)
Definition validateOGActivity (args : option Args.t) : callResult :=
  match args with
  | None => RaisesTypeError
  | Some a =>
      match Args.targetLevel a with
      | None =>
          Responds (textResponse
                      ("❌ Invalid OG level: " ++ show None ++ ". Must be 1-3."))
      | Some targetLevel =>
          ofOutcome (validateOGActivity (Args.activity a) targetLevel)
      end
  end.

(** [modalities.includes] raises on [undefined]; so does
    [phoneme.toUpperCase()], which only the visual component calls. *)
Definition generatePhonemeActivity (args : option Args.t) : callResult :=
  match args with
  | None => RaisesTypeError
  | Some a =>
      match Args.modalities a with
      | None => RaisesTypeError
      | Some modalities =>
          match Args.phoneme a with
          | None =>
              if arrayIncludes modalities "visual" then RaisesTypeError
              else Responds
                     (textResponse
                        (phonemeActivityReport (show None) modalities
                           (phonemeActivityOf None modalities)))
          | Some phoneme => Responds (generatePhonemeActivity phoneme modalities)
          end
      end
  end.

(** [code.includes] raises on [undefined]. *)
Definition reviewCodeSafety (args : option Args.t) : callResult :=
  match args with
  | None => RaisesTypeError
  | Some a =>
      match Args.code a with
      | None => RaisesTypeError
      | Some code => Responds (reviewCodeSafety code (Args.language a))
      end
  end.

(** Both fields are property keys first: [undefined] reads the key
    [undefined]. *)
Definition generateStressProtocol (args : option Args.t) : callResult :=
  match args with
  | None => RaisesTypeError
  | Some a =>
      ofOutcome (generateStressProtocol builtinTruthy
                   (show (Args.triggerType a)) (show (Args.severity a)))
  end.

(** [inputMethods.includes] raises on [undefined], if reading the theme has
    not raised before. *)
Definition generateEngagementActivity (args : option Args.t) : callResult :=
  match args with
  | None => RaisesTypeError
  | Some a =>
      match Args.inputMethods a with
      | None => RaisesTypeError
      | Some inputMethods =>
          ofOutcome (generateEngagementActivity
                       (show (Args.phoneme a)) (show (Args.theme a))
                       inputMethods (Args.stressLevel a))
      end
  end.

(** [mechanic.toLowerCase()] raises on [undefined]. *)
Definition validateEngagementSafety (args : option Args.t) : callResult :=
  match args with
  | None => RaisesTypeError
  | Some a =>
      match Args.mechanic a with
      | None => RaisesTypeError
      | Some mechanic =>
          Responds (validateEngagementSafety mechanic (Args.context a))
      end
  end.

End Handlers.

End Handler.

Section Dispatcher.

Variable builtinTruthy : string -> string -> bool.

(** The request handler of [setupHandlers]: the [switch] on the tool name. *)
Definition callTool (name : string) (args : option Args.t) : callResult :=
  if String.eqb name "generate_dyslexia_ui"
  then Handler.generateDyslexiaUI args
  else if String.eqb name "review_trauma_content"
  then Handler.reviewTraumaContent args
  else if String.eqb name "validate_og_activity"
  then Handler.validateOGActivity args
  else if String.eqb name "generate_phoneme_activity"
  then Handler.generatePhonemeActivity args
  else if String.eqb name "review_code_safety"
  then Handler.reviewCodeSafety args
  else if String.eqb name "generate_stress_protocol"
  then Handler.generateStressProtocol builtinTruthy args
  else if String.eqb name "generate_engagement_activity"
  then Handler.generateEngagementActivity args
  else if String.eqb name "validate_engagement_safety"
  then Handler.validateEngagementSafety args
  else RaisesError ("Unknown tool: " ++ name).

End Dispatcher.

(** ** Conformance of arguments to the catalog *)

(** A value has the declared type, and stays within the declared
    enumeration when there is one. *)
Definition valueConforms (p : Catalog.PropertySchema) (v : argValue) : bool :=
  match v with
  | AString s =>
      String.eqb (Catalog.type p) "string" &&
      match Catalog.enum p with
      | Some values => arrayIncludes values s
      | None => true
      end
  | ANumber _ => String.eqb (Catalog.type p) "number"
  | AObject _ => String.eqb (Catalog.type p) "object"
  | AArray l =>
      String.eqb (Catalog.type p) "array" &&
      match Catalog.items p with
      | Some i => forallb (arrayIncludes (Catalog.itemEnum i)) l
      | None => true
      end
  end.

(** The arguments hold every required field, and every declared field they
    hold conforms. *)
Definition Conforms (tool : Catalog.Tool) (a : Args.t) : Prop :=
  (forall key, In key (Catalog.required (Catalog.inputSchema tool)) ->
               Args.field a key <> None) /\
  (forall key p v,
      In (key, p) (Catalog.properties (Catalog.inputSchema tool)) ->
      Args.field a key = Some v -> valueConforms p v = true).

(** ** Vocabulary of the properties *)

(** [w] occurs in [s]: some text before it and some text after it. *)
Definition Substring (w s : string) : Prop :=
  exists pre post, s = pre ++ w ++ post.

(** One of the phrases of a family occurs in the text. *)
Definition Matches (phrases : list string) (s : string) : Prop :=
  exists p, In p phrases /\ Substring p s.

(** The phrase families of the engagement validator after the red flags,
    as the conditions of [validateEngagementSafety] list them. *)
Definition extrinsicPhrases : list string := [ "reward"; "prize" ].
Definition comparisonPhrases : list string := [ "compare"; "better than" ].
Definition timePressurePhrases : list string := [ "time"; "speed"; "fast" ].

(** An item pushed under a condition. *)
Definition whenb (b : bool) (item : string) : list string :=
  if b then [item] else [].

(** What a family adds to a list when it matches, and when it does not. *)
Definition Contributes (phrases : list string) (s item : string)
    (added : list string) : Prop :=
  (Matches phrases s -> added = [item]) /\
  (~ Matches phrases s -> added = []).

(** An activity object for the examples: one string that names two
    modalities in mixed case. *)
Definition sampleActivity : json :=
  JObject [ ("mode", JString "Visual and TACTILE") ].

(** The input methods that [interactions] tests, in the order of its
    assignments. *)
Definition inputMethodNames : list string :=
  [ "touch"; "voice"; "camera"; "microphone"; "bluetooth" ].

(** The validation of an activity object at a level. *)
Definition validationOf (activity : json) (targetLevel : Z)
    (level : CurriculumLevel) : OGValidation :=
  ogValidation (toLowerCase (JSON.stringify activity)) targetLevel level.

(** The values that the catalog enumerates for a property of a tool: the
    [enum] of a string property or of the items of an array property. *)
Definition declaredValues (toolName key : string) : list string :=
  match Catalog.find toolName with
  | None => []
  | Some tool =>
      match getOwn (Catalog.properties (Catalog.inputSchema tool)) key with
      | None => []
      | Some p =>
          match Catalog.enum p, Catalog.items p with
          | Some values, _ => values
          | None, Some i => Catalog.itemEnum i
          | None, None => []
          end
      end
  end.

(** The required fields whose absence makes the handler raise: the handler
    calls a method on the field, or reads a property of what the field
    selects. *)
Definition raisingFields : list (string * string) :=
  [ ("review_trauma_content", "content");
    ("generate_phoneme_activity", "modalities");
    ("review_code_safety", "code");
    ("generate_engagement_activity", "theme");
    ("generate_engagement_activity", "inputMethods");
    ("validate_engagement_safety", "mechanic") ].

(** No string occurs twice. *)
Fixpoint distinctb (l : list string) : bool :=
  match l with
  | [] => true
  | x :: r => negb (arrayIncludes r x) && distinctb r
  end.

(** Arguments for the examples. *)
Definition stressArgs : Args.t :=
  Args.mk None None None None None None None None None None
          (Some "performance") (Some "high") None None None None.

(** The text of the single block of a response. *)
Definition responseText (r : ToolResponse) : option string :=
  match content r with
  | [b] => if String.eqb (type b) "text" then Some (text b) else None
  | _ => None
  end.

(** * Facts about the string and array primitives *)

Section StringFacts.

Lemma responseText_textResponse (t : string) :
  responseText (textResponse t) = Some t.
Proof. reflexivity. Qed.

Lemma prefix_append (w s : string) :
  prefix w s = true <-> exists post, s = w ++ post.
Proof.
  revert s; induction w as [|a w IH]; intros s.
  - split; [intros _; now exists s | intros _; now destruct s].
  - destruct s as [|b s]; simpl.
    + split; [discriminate | intros [post H]; discriminate].
    + destruct (ascii_dec a b) as [->|Hab].
      * rewrite IH. split; intros [post H]; exists post.
        -- now rewrite H.
        -- now injection H.
      * split; [discriminate | intros [post H]].
        injection H as Hb _. now subst.
Qed.

Lemma includes_Substring (s w : string) :
  includes s w = true <-> Substring w s.
Proof.
  induction s as [|c s IH]; cbn [includes].
  - rewrite orb_false_r, prefix_append. split.
    + intros [post H]. now exists "", post.
    + intros [[|a pre] [post H]]; [now exists post | discriminate].
  - rewrite orb_true_iff, prefix_append, IH. split.
    + intros [[post H] | [pre [post H]]].
      * now exists "", post.
      * exists (String c pre), post. simpl. now rewrite H.
    + intros [[|a pre] [post H]].
      * left. now exists post.
      * right. injection H as _ H. now exists pre, post.
Qed.

Lemma includes_not_Substring (s w : string) :
  includes s w = false <-> ~ Substring w s.
Proof.
  rewrite <- includes_Substring. now destruct (includes s w).
Qed.

Lemma arrayIncludes_In (l : list string) (x : string) :
  arrayIncludes l x = true <-> In x l.
Proof.
  unfold arrayIncludes. rewrite existsb_exists. split.
  - intros [y [Hy E]]. apply String.eqb_eq in E. now subst.
  - intros H. exists x. split; [assumption | apply String.eqb_refl].
Qed.

Lemma existsb_includes_Matches (s : string) (phrases : list string) :
  existsb (includes s) phrases = true <-> Matches phrases s.
Proof.
  unfold Matches. rewrite existsb_exists.
  split; intros [p [Hp H]]; exists p; (split; [assumption|]);
    now apply includes_Substring.
Qed.

Lemma string_app_assoc (a b c : string) : (a ++ b) ++ c = a ++ b ++ c.
Proof. induction a as [|x a IH]; simpl; [reflexivity | now rewrite IH]. Qed.

Lemma Substring_refl (w : string) : Substring w w.
Proof.
  exists "", "". simpl. induction w as [|c w IH]; simpl; [reflexivity|].
  now rewrite <- IH.
Qed.

Lemma Substring_app_l (w a b : string) : Substring w a -> Substring w (a ++ b).
Proof.
  intros [pre [post ->]]. exists pre, (post ++ b).
  now rewrite !string_app_assoc.
Qed.

Lemma Substring_app_r (w a b : string) : Substring w b -> Substring w (a ++ b).
Proof.
  intros [pre [post ->]]. exists (a ++ pre), post.
  now rewrite !string_app_assoc.
Qed.

Lemma Substring_join (sep x : string) (l : list string) :
  In x l -> Substring x (join sep l).
Proof.
  induction l as [|y l IH]; intros H; [contradiction|].
  destruct H as [->|H].
  - destruct l; simpl; [apply Substring_refl|].
    apply Substring_app_l, Substring_refl.
  - destruct l as [|z l]; [contradiction|].
    change (join sep (y :: z :: l)) with (y ++ sep ++ join sep (z :: l)).
    now apply Substring_app_r, Substring_app_r, IH.
Qed.

Lemma Substring_bullets (x : string) (l : list string) :
  In x l -> Substring ("- " ++ x) (bullets l).
Proof.
  intros H. apply Substring_join.
  now apply (in_map (fun i => "- " ++ i)).
Qed.

End StringFacts.

Section ArrayFacts.

Context {A B : Type}.

(** A [forEach] that pushes a message for every element passing a test
    appends the messages of the elements that pass, in order. *)
Lemma forEach_push (test : A -> bool) (msg : A -> B) (arr : list A)
    (acc : list B) :
  fold_left (fun acc x => if test x then push acc (msg x) else acc) arr acc
  = (acc ++ map msg (filter test arr))%list.
Proof.
  revert acc; induction arr as [|x arr IH]; intros acc; simpl.
  - now rewrite app_nil_r.
  - rewrite IH. destruct (test x); [|reflexivity].
    unfold push. now rewrite <- app_assoc.
Qed.

Lemma fold_push (xs acc : list A) : fold_left push xs acc = (acc ++ xs)%list.
Proof.
  revert acc; induction xs as [|x xs IH]; intros acc; simpl.
  - now rewrite app_nil_r.
  - rewrite IH. unfold push. now rewrite <- app_assoc.
Qed.

Lemma filter_none (f : A -> bool) (l : list A) :
  (forall x, In x l -> f x = false) -> filter f l = [].
Proof.
  induction l as [|x l IH]; intros H; simpl; [reflexivity|].
  rewrite (H x (or_introl eq_refl)). apply IH.
  intros y Hy. apply H. now right.
Qed.

Lemma length_zero (l : list A) : (List.length l =? 0)%nat = true <-> l = [].
Proof. destruct l; simpl; split; (reflexivity || discriminate). Qed.

(** In a list without repetition, at least two elements pass a test
    exactly when two distinct elements pass it. *)
Lemma filter_two (f : A -> bool) (l : list A) :
  NoDup l ->
  (2 <= List.length (filter f l))%nat <->
  exists x y, x <> y /\ In x l /\ In y l /\ f x = true /\ f y = true.
Proof.
  intros Hnd. split.
  - intros Hlen.
    assert (Hf : NoDup (filter f l)) by now apply NoDup_filter.
    destruct (filter f l) as [|a [|b r]] eqn:E; simpl in Hlen; try lia.
    assert (Ha : In a (filter f l)) by (rewrite E; now left).
    assert (Hb : In b (filter f l)) by (rewrite E; right; now left).
    apply filter_In in Ha, Hb. exists a, b. repeat split; try tauto.
    intros ->. inversion Hf as [|? ? Hn _]; subst. apply Hn. now left.
  - intros [x [y [Hxy [Hx [Hy [Fx Fy]]]]]].
    assert (Ix : In x (filter f l)) by (apply filter_In; tauto).
    assert (Iy : In y (filter f l)) by (apply filter_In; tauto).
    destruct (filter f l) as [|a [|b r]]; simpl in *; try lia; try tauto.
    destruct Ix as [<-|[]], Iy as [<-|[]]. now elim Hxy.
Qed.

End ArrayFacts.

(** Finds a piece of a concatenation: [tac] must close the goal once the
    piece is at the head, else the search moves one piece to the right. *)
Ltac find_piece tac :=
  first [ solve [tac]
        | apply Substring_app_l; solve [tac]
        | apply Substring_app_r; find_piece tac ].

(** * review_trauma_content *)

Section ReviewTraumaContent.

Import TRAUMA_INFORMED_PRINCIPLES.

Lemma traumaReview_issues (content : string) :
  tr_issues (traumaReview content) =
  (map triggeringWord
       (filter (fun w => includes (toLowerCase content) (toLowerCase w)) avoid)
   ++ map pressureWord
       (filter (fun w => includes (toLowerCase content) w) pressureWords))%list.
Proof.
  unfold traumaReview, scanPressure, scanAvoid; cbn [tr_issues].
  now rewrite !forEach_push.
Qed.

Lemma traumaReview_flag (content : string) :
  isTraumaInformed (traumaReview content) = true <->
  tr_issues (traumaReview content) = [].
Proof.
  unfold traumaReview; cbn [isTraumaInformed tr_issues]. apply length_zero.
Qed.

Section OverTheHost.

(** The host's [toLowerCase]. *)
Variable lower : string -> string.

Lemma host_traumaReview_issues (content : string) :
  tr_issues (Host.traumaReview lower content) =
  (map triggeringWord
       (filter (fun w => includes (lower content) (lower w)) avoid)
   ++ map pressureWord
       (filter (fun w => includes (lower content) w) pressureWords))%list.
Proof.
  unfold Host.traumaReview, Host.scanPressure, Host.scanAvoid; cbn [tr_issues].
  now rewrite !forEach_push.
Qed.

Lemma host_traumaReview_flag (content : string) :
  isTraumaInformed (Host.traumaReview lower content) = true <->
  tr_issues (Host.traumaReview lower content) = [].
Proof.
  unfold Host.traumaReview; cbn [isTraumaInformed tr_issues]. apply length_zero.
Qed.

(** C1, as the code has it.  Whatever the host's [toLowerCase] does, for
    every content: when the lower-cased content holds a lower-cased phrase of
    the avoid list, the review is not compliant, its issues hold the message
    that cites the phrase between double quotes, and the answer shows the
    failure marker and that message; when the lower-cased content holds
    neither a lower-cased phrase of the avoid list nor a pressure word, the
    review is compliant and has no issue. *)
Theorem review_trauma_content_sound (content : string) (context : option string) :
  (forall phrase,
      In phrase avoid ->
      Substring (lower phrase) (lower content) ->
      isTraumaInformed (Host.traumaReview lower content) = false /\
      In (triggeringWord phrase) (tr_issues (Host.traumaReview lower content)) /\
      exists t,
        responseText (Host.reviewTraumaContent lower content context) = Some t /\
        Substring "❌ ISSUES DETECTED" t /\
        Substring ("- " ++ triggeringWord phrase) t) /\
  ((forall phrase, In phrase avoid ->
                   ~ Substring (lower phrase) (lower content)) ->
   (forall word, In word pressureWords ->
                 ~ Substring word (lower content)) ->
   isTraumaInformed (Host.traumaReview lower content) = true /\
   tr_issues (Host.traumaReview lower content) = []).
Proof.
  split.
  - intros phrase Hin Hsub.
    assert (Hissue : In (triggeringWord phrase)
                        (tr_issues (Host.traumaReview lower content))).
    { rewrite host_traumaReview_issues. apply in_or_app; left.
      apply in_map, filter_In. split; [assumption|].
      now apply includes_Substring. }
    assert (Hflag : isTraumaInformed (Host.traumaReview lower content) = false).
    { destruct (isTraumaInformed (Host.traumaReview lower content)) eqn:E;
        [|reflexivity].
      apply host_traumaReview_flag in E. rewrite E in Hissue. contradiction. }
    repeat split; try assumption.
    unfold Host.reviewTraumaContent. rewrite responseText_textResponse.
    eexists; split; [reflexivity|].
    unfold traumaReport. rewrite Hflag.
    destruct (tr_issues (Host.traumaReview lower content)) as [|i l] eqn:E;
      [contradiction|].
    cbn [List.length Nat.ltb Nat.leb].
    split.
    + find_piece ltac:(apply Substring_refl).
    + find_piece ltac:(do 2 apply Substring_app_r; apply Substring_app_l;
                       now apply Substring_bullets).
  - intros Havoid Hpressure.
    assert (E : tr_issues (Host.traumaReview lower content) = []).
    { rewrite host_traumaReview_issues.
      rewrite !filter_none; [reflexivity | |].
      - intros w Hw. now apply includes_not_Substring, Hpressure.
      - intros w Hw. now apply includes_not_Substring, Havoid. }
    split; [|assumption]. now apply host_traumaReview_flag.
Qed.

End OverTheHost.

(** The review at the case functions of [Js] is the review over the host at
    those functions. *)
Lemma traumaReview_at_Js (content : string) (context : option string) :
  traumaReview content = Host.traumaReview toLowerCase content /\
  reviewTraumaContent content context
  = Host.reviewTraumaContent toLowerCase content context.
Proof. split; reflexivity. Qed.

(** The theorem at the two examples of the specification, with the ASCII
    lower-casing. *)
Lemma review_trauma_content_sound_witness :
  (isTraumaInformed
     (Host.traumaReview toLowerCase "You got that wrong! Try again.") = false /\
   In (triggeringWord "try again")
      (tr_issues (Host.traumaReview toLowerCase "You got that wrong! Try again.")) /\
   exists t,
     responseText
       (Host.reviewTraumaContent toLowerCase "You got that wrong! Try again."
                                 (Some "feedback message")) = Some t /\
     Substring "❌ ISSUES DETECTED" t /\
     Substring ("- " ++ triggeringWord "try again") t) /\
  (isTraumaInformed
     (Host.traumaReview toLowerCase "Let's practice this sound together.") = true /\
   tr_issues
     (Host.traumaReview toLowerCase "Let's practice this sound together.") = []).
Proof.
  split.
  - apply (proj1 (review_trauma_content_sound toLowerCase
                    "You got that wrong! Try again." (Some "feedback message"))
                 "try again").
    + simpl; tauto.
    + apply includes_Substring. vm_compute. reflexivity.
  - apply (proj2 (review_trauma_content_sound toLowerCase
                    "Let's practice this sound together." None)).
    + intros phrase Hin. apply includes_not_Substring.
      simpl in Hin.
      repeat (destruct Hin as [<- | Hin]; [vm_compute; reflexivity|]).
      contradiction.
    + intros word Hin. apply includes_not_Substring.
      simpl in Hin.
      repeat (destruct Hin as [<- | Hin]; [vm_compute; reflexivity|]).
      contradiction.
Defined.

(** C1 as worded, with the phrase between single quotes, fails: the content
    [That is wrong] holds the avoid phrase [wrong], and the only issue
    reported cites it between double quotes. *)
Lemma review_trauma_content_quotes_counterexample :
  In "wrong" avoid /\
  Substring (toLowerCase "wrong") (toLowerCase "That is wrong") /\
  tr_issues (traumaReview "That is wrong")
    = [ "Contains potentially triggering word: " ++ dq ++ "wrong" ++ dq ] /\
  ~ In "Contains potentially triggering word: 'wrong'"
       (tr_issues (traumaReview "That is wrong")).
Proof.
  split; [simpl; tauto|].
  split; [apply includes_Substring; vm_compute; reflexivity|].
  split; [vm_compute; reflexivity|].
  vm_compute. intros [H|[]]. discriminate H.
Qed.

End ReviewTraumaContent.

(** * validate_engagement_safety *)

Section ValidateEngagementSafety.

(** The two arrays of [validateEngagementSafety] in closed form. *)
Lemma engagementReview_closed (mechanic : string) :
  let m := toLowerCase mechanic in
  let issues :=
    (map pressuringElement (filter (includes m) redFlags)
     ++ whenb (existsb (includes m) extrinsicPhrases) extrinsicIssue
     ++ whenb (existsb (includes m) comparisonPhrases) comparisonIssue
     ++ whenb (existsb (includes m) timePressurePhrases) timePressureIssue)%list in
  er_issues (engagementReview mechanic) = issues /\
  er_recommendations (engagementReview mechanic) =
    (whenb (existsb (includes m) extrinsicPhrases) extrinsicAdvice
     ++ whenb (existsb (includes m) comparisonPhrases) comparisonAdvice
     ++ whenb (existsb (includes m) timePressurePhrases) timePressureAdvice
     ++ match issues with [] => positiveSuggestions | _ => [] end)%list /\
  (er_isSafe (engagementReview mechanic) = true <->
   er_issues (engagementReview mechanic) = []).
Proof.
  intros m issues. subst issues. unfold engagementReview. fold m.
  unfold scanRedFlags. rewrite forEach_push.
  unfold extrinsicPhrases, comparisonPhrases, timePressurePhrases.
  cbn [existsb]. rewrite !orb_false_r, orb_assoc.
  change (fun f : string => includes m f) with (includes m).
  generalize (map pressuringElement (filter (includes m) redFlags)).
  generalize (includes m "reward" || includes m "prize").
  generalize (includes m "compare" || includes m "better than").
  generalize (includes m "time" || includes m "speed" || includes m "fast").
  intros b3 b2 b1 flagged.
  assert (Hz : forall l : list string,
             (List.length l =? 0)%nat = true <-> l = []) by apply length_zero.
  destruct b1, b2, b3; cbn [er_issues er_recommendations er_isSafe whenb];
    rewrite ?fold_push; unfold push; cbn [app];
    rewrite <- ?app_assoc; cbn [app]; rewrite ?app_nil_r.
  all: (split; [reflexivity|]); (split; [|apply Hz]).
  all: destruct flagged; reflexivity.
Qed.

Lemma whenb_Contributes (phrases : list string) (m item : string) :
  Contributes phrases m item (whenb (existsb (includes m) phrases) item).
Proof.
  unfold Contributes. rewrite <- existsb_includes_Matches.
  destruct (existsb (includes m) phrases); split; intros H;
    try reflexivity; try discriminate; now elim H.
Qed.

Section EngagementOverTheHost.

(** The host's [toLowerCase]. *)
Variable lower : string -> string.

(** The two arrays of [validateEngagementSafety] in closed form, over the
    host. *)
Lemma host_engagementReview_closed (mechanic : string) :
  let m := lower mechanic in
  let issues :=
    (map pressuringElement (filter (includes m) redFlags)
     ++ whenb (existsb (includes m) extrinsicPhrases) extrinsicIssue
     ++ whenb (existsb (includes m) comparisonPhrases) comparisonIssue
     ++ whenb (existsb (includes m) timePressurePhrases) timePressureIssue)%list in
  er_issues (Host.engagementReview lower mechanic) = issues /\
  er_recommendations (Host.engagementReview lower mechanic) =
    (whenb (existsb (includes m) extrinsicPhrases) extrinsicAdvice
     ++ whenb (existsb (includes m) comparisonPhrases) comparisonAdvice
     ++ whenb (existsb (includes m) timePressurePhrases) timePressureAdvice
     ++ match issues with [] => positiveSuggestions | _ => [] end)%list.
Proof.
  intros m issues. subst issues. unfold Host.engagementReview. fold m.
  unfold scanRedFlags. rewrite forEach_push.
  unfold extrinsicPhrases, comparisonPhrases, timePressurePhrases.
  cbn [existsb]. rewrite !orb_false_r, orb_assoc.
  change (fun f : string => includes m f) with (includes m).
  generalize (map pressuringElement (filter (includes m) redFlags)).
  generalize (includes m "reward" || includes m "prize").
  generalize (includes m "compare" || includes m "better than").
  generalize (includes m "time" || includes m "speed" || includes m "fast").
  intros b3 b2 b1 flagged.
  destruct b1, b2, b3; cbn [er_issues er_recommendations whenb];
    rewrite ?fold_push; unfold push; cbn [app];
    rewrite <- ?app_assoc; cbn [app]; rewrite ?app_nil_r.
  all: split; [reflexivity|].
  all: destruct flagged; reflexivity.
Qed.

(** C2, as the code has it.  Whatever the host's [toLowerCase] does, the
    issues are, in this order, one message per red flag that occurs in the
    lower-cased mechanic (in the order of the list), then the issue of the
    extrinsic-reward family, of the comparison family and of the
    time-pressure family, each present exactly when its family matches.  The
    recommendations are the advice of the last three families in the same
    order, each present exactly when its family matches; the red flags add
    none.  With no issue at all the recommendations are exactly the three
    positive-design suggestions, and with an issue none of them is added. *)
Theorem validate_engagement_safety_families (mechanic : string) :
  exists (flagged ib ic it rb rc rt rp : list string),
    er_issues (Host.engagementReview lower mechanic)
      = (map pressuringElement flagged ++ ib ++ ic ++ it)%list /\
    er_recommendations (Host.engagementReview lower mechanic)
      = (rb ++ rc ++ rt ++ rp)%list /\
    (exists test : string -> bool,
        (forall flag, test flag = true <-> Substring flag (lower mechanic)) /\
        flagged = filter test redFlags) /\
    Contributes extrinsicPhrases (lower mechanic) extrinsicIssue ib /\
    Contributes extrinsicPhrases (lower mechanic) extrinsicAdvice rb /\
    Contributes comparisonPhrases (lower mechanic) comparisonIssue ic /\
    Contributes comparisonPhrases (lower mechanic) comparisonAdvice rc /\
    Contributes timePressurePhrases (lower mechanic) timePressureIssue it /\
    Contributes timePressurePhrases (lower mechanic) timePressureAdvice rt /\
    (er_issues (Host.engagementReview lower mechanic) = [] ->
     rp = positiveSuggestions /\
     er_recommendations (Host.engagementReview lower mechanic)
     = positiveSuggestions /\
     List.length (er_recommendations (Host.engagementReview lower mechanic))
     = 3%nat) /\
    (er_issues (Host.engagementReview lower mechanic) <> [] -> rp = []).
Proof.
  destruct (host_engagementReview_closed mechanic) as [Hi Hr].
  set (m := lower mechanic) in *.
  eexists _, _, _, _, _, _, _, _.
  split; [exact Hi|]. split; [exact Hr|].
  split; [exists (includes m); split;
          [intros flag; apply includes_Substring | reflexivity]|].
  do 6 (split; [apply whenb_Contributes|]).
  rewrite Hr, Hi. split.
  - intros E.
    destruct (map pressuringElement (filter (includes m) redFlags)); [|discriminate].
    destruct (existsb (includes m) extrinsicPhrases); [discriminate|].
    destruct (existsb (includes m) comparisonPhrases); [discriminate|].
    destruct (existsb (includes m) timePressurePhrases); [discriminate|].
    repeat split.
  - intros NE.
    destruct (_ ++ _)%list; [now elim NE | reflexivity].
Qed.

End EngagementOverTheHost.

(** The review at the case functions of [Js] is the review over the host at
    those functions. *)
Lemma engagementReview_at_Js (mechanic : string) (context : option string) :
  engagementReview mechanic = Host.engagementReview toLowerCase mechanic /\
  validateEngagementSafety mechanic context
  = Host.validateEngagementSafety toLowerCase mechanic context.
Proof. split; reflexivity. Qed.

(** The theorem at a mechanic with no issue and at the mechanic of the
    specification's example, with the ASCII lower-casing. *)
Lemma validate_engagement_safety_families_witness :
  er_recommendations (Host.engagementReview toLowerCase "story exploration")
  = positiveSuggestions /\
  er_issues
    (Host.engagementReview toLowerCase
       "Timer-based challenges with leaderboard scoring")
  = [ pressuringElement "leaderboard"; pressuringElement "timer";
      timePressureIssue ].
Proof.
  split.
  - destruct (validate_engagement_safety_families toLowerCase "story exploration")
      as (flagged & ib & ic & it & rb & rc & rt & rp & _ & _ & _ & _ & _ & _ &
          _ & _ & _ & Hsafe & _).
    apply Hsafe. vm_compute. reflexivity.
  - vm_compute. reflexivity.
Defined.

(** C2 as worded fails for the red flags: the mechanic [score] matches the
    red flag [score] and gets its issue, and no recommendation at all. *)
Lemma validate_engagement_safety_red_flag_counterexample :
  Matches redFlags (toLowerCase "score") /\
  er_issues (engagementReview "score") = [pressuringElement "score"] /\
  er_recommendations (engagementReview "score") = [].
Proof.
  split; [|split; vm_compute; reflexivity].
  exists "score". split; [simpl; tauto|].
  apply includes_Substring. vm_compute. reflexivity.
Qed.

End ValidateEngagementSafety.

(** * generate_stress_protocol *)

Section GenerateStressProtocol.

Variable builtinTruthy : string -> string -> bool.


End GenerateStressProtocol.


(** * validate_og_activity *)

Section ValidateOGActivity.

Lemma levelData_index (targetLevel : Z) (level : CurriculumLevel) :
  levelData targetLevel = Some level ->
  exists n, nth_error (values OG_CURRICULUM) n = Some level /\
            (n < 3)%nat /\ targetLevel = (Z.of_nat n + 1)%Z.
Proof.
  unfold levelData, at_index.
  destruct (targetLevel - 1 <? 0)%Z eqn:E; [discriminate|].
  apply Z.ltb_ge in E. intros H.
  exists (Z.to_nat (targetLevel - 1)). split; [assumption|]. split; [|lia].
  change 3%nat with (List.length (values OG_CURRICULUM)).
  apply nth_error_Some. rewrite H. discriminate.
Qed.

Lemma levelData_in_range (targetLevel : Z) :
  (1 <= targetLevel <= 3)%Z -> exists level, levelData targetLevel = Some level.
Proof.
  intros H.
  assert (C : targetLevel = 1%Z \/ targetLevel = 2%Z \/ targetLevel = 3%Z) by lia.
  destruct C as [-> | [-> | ->]]; eexists; reflexivity.
Qed.

Lemma levelData_out_of_range (targetLevel : Z) :
  levelData targetLevel = None <-> (targetLevel < 1 \/ 3 < targetLevel)%Z.
Proof.
  split.
  - intros H.
    destruct (Z_lt_ge_dec targetLevel 1) as [|H1]; [now left|].
    destruct (Z_lt_ge_dec 3 targetLevel) as [|H3]; [now right|].
    destruct (levelData_in_range targetLevel) as [l Hl]; [lia|congruence].
  - intros H.
    destruct (levelData targetLevel) as [level|] eqn:E; [|reflexivity].
    apply levelData_index in E. destruct E as [n [_ [Hn ->]]]. lia.
Qed.

(** The phonemes of the table are lower-case already. *)
Lemma phonemes_lower (n : nat) (level : CurriculumLevel) (ps : list string) :
  nth_error (values OG_CURRICULUM) n = Some level ->
  phonemes level = Some ps ->
  forall p, In p ps -> toLowerCase p = p.
Proof.
  intros Hn Hps p Hp.
  destruct n as [|[|[|n]]]; simpl in Hn;
    try (destruct n; discriminate);
    injection Hn as <-; simpl in Hps; injection Hps as <-; simpl in Hp;
    repeat (destruct Hp as [<-|Hp]; [reflexivity|]); contradiction.
Qed.

Lemma phonemes_defined (n : nat) (level : CurriculumLevel) :
  nth_error (values OG_CURRICULUM) n = Some level ->
  exists ps, phonemes level = Some ps.
Proof.
  intros Hn.
  destruct n as [|[|[|n]]]; simpl in Hn;
    try (destruct n; discriminate);
    injection Hn as <-; eexists; reflexivity.
Qed.

Lemma modalityNames_NoDup : NoDup modalityNames.
Proof.
  unfold modalityNames.
  repeat (constructor; [simpl; intuition discriminate|]). constructor.
Qed.

Section OGOverTheHost.

(** The host: [toLowerCase], the activity values with [JSON.stringify], and
    the numbers with their integer value and their conversion to a string. *)
Variable lower : string -> string.
Variable Activity : Type.
Variable stringify : Activity -> string.
Variable Number : Type.
Variable integerValue : Number -> option Z.
Variable toString : Number -> string.

(** At an integer the level over the host is the level of the table. *)
Lemma host_levelData_integer (targetLevel : Number) (z : Z) :
  integerValue targetLevel = Some z ->
  Host.levelData Number integerValue targetLevel = levelData z.
Proof. intros H. unfold Host.levelData. now rewrite H. Qed.

(** A level resolves exactly for the integers 1, 2 and 3. *)
Lemma host_levelData_none (targetLevel : Number) :
  Host.levelData Number integerValue targetLevel = None <->
  forall z, integerValue targetLevel = Some z -> (z < 1 \/ 3 < z)%Z.
Proof.
  unfold Host.levelData.
  destruct (integerValue targetLevel) as [z|].
  - change (at_index (values OG_CURRICULUM) (z - 1)) with (levelData z).
    rewrite levelData_out_of_range. split.
    + intros H z' [= <-]. exact H.
    + intros H. now apply H.
  - split; [discriminate | reflexivity].
Qed.

Lemma phonemes_in_curriculum (n : nat) (level : CurriculumLevel)
    (ps : list string) :
  nth_error (values OG_CURRICULUM) n = Some level ->
  phonemes level = Some ps ->
  forall p, In p ps -> In p curriculumPhonemes.
Proof.
  intros Hn Hps p Hp. unfold curriculumPhonemes.
  apply in_flat_map. exists level. split.
  - eapply nth_error_In; eassumption.
  - now rewrite Hps.
Qed.

(** C4.  Whatever the host's [toLowerCase], [JSON.stringify] and numbers
    are: for every activity and every target level that is the integer 1, 2
    or 3 the level resolves, the answer is the report of the validation, and
    in that validation [isMultisensory] holds exactly when two different
    modality names occur in the lower-cased serialized activity,
    [hasPhonemesFocus] holds exactly when the lower-cased form of a phoneme
    of the level occurs in it, which is the phoneme itself when lower-casing
    leaves the phonemes of the curriculum as they are, and [meetsLevel] is
    the conjunction of the two. *)
Theorem og_validation_criteria (activity : Activity) (targetLevel : Number)
    (z : Z) :
  integerValue targetLevel = Some z ->
  (1 <= z <= 3)%Z ->
  exists level ps,
    Host.levelData Number integerValue targetLevel = Some level /\
    phonemes level = Some ps /\
    Host.validateOGActivity lower Activity stringify Number integerValue toString
                            (Some activity) targetLevel
      = Returns (textResponse
                   (Host.ogReport Number toString targetLevel level
                      (Host.ogValidation lower Number toString
                                         (lower (stringify activity))
                                         targetLevel level))) /\
    (isMultisensory (Host.ogValidation lower Number toString
                                       (lower (stringify activity))
                                       targetLevel level) = true <->
     exists m1 m2,
       m1 <> m2 /\ In m1 modalityNames /\ In m2 modalityNames /\
       Substring m1 (lower (stringify activity)) /\
       Substring m2 (lower (stringify activity))) /\
    (hasPhonemesFocus (Host.ogValidation lower Number toString
                                         (lower (stringify activity))
                                         targetLevel level) = true <->
     exists p, In p ps /\ Substring (lower p) (lower (stringify activity))) /\
    ((forall p, In p curriculumPhonemes -> lower p = p) ->
     (hasPhonemesFocus (Host.ogValidation lower Number toString
                                          (lower (stringify activity))
                                          targetLevel level) = true <->
      exists p, In p ps /\ Substring p (lower (stringify activity)))) /\
    meetsLevel (Host.ogValidation lower Number toString
                                  (lower (stringify activity)) targetLevel level)
    = isMultisensory (Host.ogValidation lower Number toString
                                        (lower (stringify activity))
                                        targetLevel level)
      && hasPhonemesFocus (Host.ogValidation lower Number toString
                                             (lower (stringify activity))
                                             targetLevel level).
Proof.
  intros Hz Hrange.
  destruct (levelData_in_range z Hrange) as [level Hlevel].
  destruct (levelData_index _ _ Hlevel) as [n [Hn _]].
  destruct (phonemes_defined n level Hn) as [ps Hps].
  rewrite <- (host_levelData_integer targetLevel z Hz) in Hlevel.
  exists level, ps.
  split; [assumption|]. split; [assumption|].
  split; [unfold Host.validateOGActivity; now rewrite Hlevel|].
  generalize (lower (stringify activity)); intros s.
  unfold Host.ogValidation. rewrite Hps.
  cbn [isMultisensory hasPhonemesFocus meetsLevel].
  assert (Hfocus :
            existsb (fun p => includes s (lower p)) ps = true <->
            exists p, In p ps /\ Substring (lower p) s).
  { rewrite existsb_exists.
    split; intros (p & Hp & H); exists p; (split; [assumption|]);
      now apply includes_Substring. }
  split; [|split; [exact Hfocus | split; [|reflexivity]]].
  - rewrite Nat.leb_le, (filter_two _ _ modalityNames_NoDup).
    split; intros (m1 & m2 & Hne & H1 & H2 & S1 & S2); exists m1, m2;
      repeat split; try assumption; now apply includes_Substring.
  - intros Hfix. rewrite Hfocus.
    split; intros (p & Hp & H); exists p; (split; [assumption|]).
    + now rewrite <- (Hfix p (phonemes_in_curriculum n level ps Hn Hps p Hp)).
    + now rewrite (Hfix p (phonemes_in_curriculum n level ps Hn Hps p Hp)).
Qed.

(** C5.  Whatever the host's numbers are: for every target level that is
    not the integer 1, 2 or 3 (an integer below 1 or above 3, a fractional
    number, [NaN], an infinity), whatever the activity argument (even
    absent), no level resolves and the call returns the single text block
    that names the level, as the host converts it to a string, as invalid
    and gives the range 1-3; it does not raise. *)
Theorem og_level_out_of_range (activity : option Activity)
    (targetLevel : Number) :
  (forall z, integerValue targetLevel = Some z -> (z < 1 \/ 3 < z)%Z) ->
  Host.levelData Number integerValue targetLevel = None /\
  Host.validateOGActivity lower Activity stringify Number integerValue toString
                          activity targetLevel
    = Returns (textResponse
                 ("❌ Invalid OG level: " ++ toString targetLevel ++
                  ". Must be 1-3.")).
Proof.
  intros H. apply host_levelData_none in H.
  split; [assumption|].
  unfold Host.validateOGActivity. now rewrite H.
Qed.

End OGOverTheHost.

(** The validator on integers and JSON values is the validator over the
    host at the functions of [Js] and [JSON]. *)
Lemma validateOGActivity_at_Js (activity : option json) (targetLevel : Z) :
  levelData targetLevel = Host.levelData Z Some targetLevel /\
  validateOGActivity activity targetLevel
  = Host.validateOGActivity toLowerCase json JSON.stringify Z Some
                            numberToString activity targetLevel.
Proof. split; reflexivity. Qed.

(** The ASCII lower-casing leaves the phonemes of the curriculum as they
    are. *)
Lemma curriculumPhonemes_lower (p : string) :
  In p curriculumPhonemes -> toLowerCase p = p.
Proof.
  intros Hp. vm_compute in Hp.
  repeat (destruct Hp as [<- | Hp]; [reflexivity|]). contradiction.
Qed.

(** The theorem at level 1 and the sample activity, with the ASCII
    lower-casing and the serialization of [JSON]. *)
Lemma og_validation_criteria_witness :
  exists level ps,
    Host.levelData sampleNumber sampleIntegerValue One = Some level /\
    phonemes level = Some ps /\
    Host.validateOGActivity toLowerCase json JSON.stringify
                            sampleNumber sampleIntegerValue sampleNumberToString
                            (Some sampleActivity) One
      = Returns (textResponse
                   (Host.ogReport sampleNumber sampleNumberToString One level
                      (Host.ogValidation toLowerCase sampleNumber
                                         sampleNumberToString
                                         (toLowerCase (JSON.stringify sampleActivity))
                                         One level))) /\
    (isMultisensory (Host.ogValidation toLowerCase sampleNumber
                                       sampleNumberToString
                                       (toLowerCase (JSON.stringify sampleActivity))
                                       One level) = true <->
     exists m1 m2,
       m1 <> m2 /\ In m1 modalityNames /\ In m2 modalityNames /\
       Substring m1 (toLowerCase (JSON.stringify sampleActivity)) /\
       Substring m2 (toLowerCase (JSON.stringify sampleActivity))) /\
    (hasPhonemesFocus (Host.ogValidation toLowerCase sampleNumber
                                         sampleNumberToString
                                         (toLowerCase (JSON.stringify sampleActivity))
                                         One level) = true <->
     exists p, In p ps /\
               Substring (toLowerCase p)
                         (toLowerCase (JSON.stringify sampleActivity))) /\
    ((forall p, In p curriculumPhonemes -> toLowerCase p = p) ->
     (hasPhonemesFocus (Host.ogValidation toLowerCase sampleNumber
                                          sampleNumberToString
                                          (toLowerCase (JSON.stringify sampleActivity))
                                          One level) = true <->
      exists p, In p ps /\
                Substring p (toLowerCase (JSON.stringify sampleActivity)))) /\
    meetsLevel (Host.ogValidation toLowerCase sampleNumber sampleNumberToString
                                  (toLowerCase (JSON.stringify sampleActivity))
                                  One level)
    = isMultisensory (Host.ogValidation toLowerCase sampleNumber
                                        sampleNumberToString
                                        (toLowerCase (JSON.stringify sampleActivity))
                                        One level)
      && hasPhonemesFocus (Host.ogValidation toLowerCase sampleNumber
                                             sampleNumberToString
                                             (toLowerCase (JSON.stringify sampleActivity))
                                             One level).
Proof.
  apply (og_validation_criteria toLowerCase json JSON.stringify
           sampleNumber sampleIntegerValue sampleNumberToString
           sampleActivity One 1).
  - reflexivity.
  - lia.
Defined.

(** The theorem at level 4, at 3.5, at 1e21 and at [NaN], without an
    activity. *)
Lemma og_level_out_of_range_witness :
  Host.validateOGActivity toLowerCase json JSON.stringify
                          sampleNumber sampleIntegerValue sampleNumberToString
                          None Four
    = Returns (textResponse "❌ Invalid OG level: 4. Must be 1-3.") /\
  Host.validateOGActivity toLowerCase json JSON.stringify
                          sampleNumber sampleIntegerValue sampleNumberToString
                          None ThreeAndAHalf
    = Returns (textResponse "❌ Invalid OG level: 3.5. Must be 1-3.") /\
  Host.validateOGActivity toLowerCase json JSON.stringify
                          sampleNumber sampleIntegerValue sampleNumberToString
                          None Sextillion
    = Returns (textResponse "❌ Invalid OG level: 1e+21. Must be 1-3.") /\
  Host.validateOGActivity toLowerCase json JSON.stringify
                          sampleNumber sampleIntegerValue sampleNumberToString
                          None NotANumber
    = Returns (textResponse "❌ Invalid OG level: NaN. Must be 1-3.").
Proof.
  split; [|split; [|split]].
  - apply (og_level_out_of_range toLowerCase json JSON.stringify
             sampleNumber sampleIntegerValue sampleNumberToString None Four).
    intros z [= <-]. lia.
  - apply (og_level_out_of_range toLowerCase json JSON.stringify
             sampleNumber sampleIntegerValue sampleNumberToString
             None ThreeAndAHalf).
    intros z [=].
  - apply (og_level_out_of_range toLowerCase json JSON.stringify
             sampleNumber sampleIntegerValue sampleNumberToString
             None Sextillion).
    intros z [= <-]. lia.
  - apply (og_level_out_of_range toLowerCase json JSON.stringify
             sampleNumber sampleIntegerValue sampleNumberToString
             None NotANumber).
    intros z [=].
Defined.

End ValidateOGActivity.

(** * review_code_safety *)

Section ReviewCodeSafety.

(** The issues of [reviewCodeSafety] in closed form. *)
Lemma codeReview_closed (code : string) :
  cr_issues (codeReview code)
  = (whenb (includes code "fail" || includes code "error" || includes code "wrong")
           failureStateIssue
     ++ whenb (includes code "timeout" || includes code "time limit")
              timeLimitIssue
     ++ whenb (includes code "onClick" && negb (includes code "aria-label"))
              accessibilityIssue)%list /\
  (cr_isSafe (codeReview code) = true <-> cr_issues (codeReview code) = []).
Proof.
  unfold codeReview.
  generalize (includes code "fail" || includes code "error" || includes code "wrong").
  generalize (includes code "timeout" || includes code "time limit").
  generalize (includes code "onClick" && negb (includes code "aria-label")).
  generalize (includes code "celebrate" || includes code "great" ||
              includes code "nice work").
  intros b4 b3 b2 b1.
  destruct b1, b2, b3; cbn [cr_issues cr_isSafe whenb]; unfold push; cbn [app];
    (split; [reflexivity | apply length_zero]).
Qed.

Lemma in_whenb (b : bool) (item x : string) :
  In x (whenb b item) <-> b = true /\ x = item.
Proof.
  destruct b; simpl; split; try tauto.
  - intros [<-|[]]. now split.
  - intros [_ ->]. now left.
  - intros [H _]. discriminate.
Qed.



End ReviewCodeSafety.

(** * The invariant of the validation results *)


(** * generate_phoneme_activity *)

Section GeneratePhonemeActivity.

(** The keys of [activity.components] and the assessment entry, whatever the
    four sub-trees are. *)
Lemma phonemeComponents_keys (phoneme : string) (modalities : list string) :
  keys (phonemeComponents phoneme modalities)
  = (whenb (arrayIncludes modalities "visual") "visual"
     ++ whenb (arrayIncludes modalities "auditory") "auditory"
     ++ whenb (arrayIncludes modalities "kinesthetic") "kinesthetic"
     ++ whenb (arrayIncludes modalities "tactile") "tactile"
     ++ ["assessment"])%list /\
  getOwn (phonemeComponents phoneme modalities) "assessment" = Some assessment.
Proof.
  unfold phonemeComponents.
  generalize (visualComponent phoneme) (auditoryComponent phoneme)
             kinestheticComponent tactileComponent assessment.
  intros v a k t s.
  destruct (arrayIncludes modalities "visual"),
           (arrayIncludes modalities "auditory"),
           (arrayIncludes modalities "kinesthetic"),
           (arrayIncludes modalities "tactile"); split; reflexivity.
Qed.



End GeneratePhonemeActivity.

(** * Table lookups of the generators *)

Section Lookups.

(** C8.  The color-scheme lookup gives each of the four intents its record
    (the type of [getColorScheme] has no undefined result); the theme lookup
    finds an own record for each of the six theme tags, and the generator
    then returns; the complexity tag of [high] is [simple], of [medium] is
    [moderate], and of any other stress level, the default [low] included, is
    [rich]. *)
Theorem lookups_total :
  getColorScheme "primary"
    = ColorScheme.mk "bg-green-100" "border-green-200" "text-green-900" /\
  getColorScheme "secondary"
    = ColorScheme.mk "bg-gray-100" "border-gray-200" "text-gray-900" /\
  getColorScheme "comfort"
    = ColorScheme.mk "bg-pink-100" "border-pink-200" "text-pink-900" /\
  getColorScheme "celebration"
    = ColorScheme.mk "bg-blue-100" "border-blue-200" "text-blue-900" /\
  getColorScheme (orDefault None "primary") = getColorScheme "primary" /\
  (forall theme,
      In theme [ "dragons"; "space"; "magic"; "animals"; "adventure"; "mystery" ] ->
      (exists t, selectedTheme theme = Own t /\ In (theme, t) themes) /\
      forall phoneme inputMethods stressLevel,
      exists r,
        generateEngagementActivity phoneme theme inputMethods stressLevel
        = Returns r) /\
  complexity "high" = "simple" /\
  complexity "medium" = "moderate" /\
  complexity "low" = "rich" /\
  complexity (orDefault None "low") = "rich" /\
  (forall stressLevel,
      stressLevel <> "high" -> stressLevel <> "medium" ->
      complexity stressLevel = "rich").
Proof.
  do 5 (split; [reflexivity|]).
  split.
  - intros theme Hin.
    assert (H : exists t, selectedTheme theme = Own t /\ In (theme, t) themes).
    { simpl in Hin.
      destruct Hin as [<-|[<-|[<-|[<-|[<-|[<-|[]]]]]]];
        (eexists; split; [reflexivity | simpl; tauto]). }
    split; [exact H|].
    intros phoneme inputMethods stressLevel.
    destruct H as [t [Ht _]].
    unfold generateEngagementActivity. rewrite Ht. eexists; reflexivity.
  - do 4 (split; [reflexivity|]).
    intros stressLevel Hh Hm. unfold complexity.
    apply String.eqb_neq in Hh, Hm. now rewrite Hh, Hm.
Qed.

(** The theorem at the theme [space] and at the stress level [low]. *)
Lemma lookups_total_witness :
  (exists t, selectedTheme "space" = Own t /\ In ("space", t) themes) /\
  complexity "low" = "rich".
Proof.
  split.
  - apply (proj1 (proj2 (proj2 (proj2 (proj2 (proj2 lookups_total))))) "space").
    simpl; tauto.
  - apply (proj2 (proj2 (proj2 (proj2 (proj2 (proj2
             (proj2 (proj2 (proj2 (proj2 lookups_total)))))))))); discriminate.
Defined.

End Lookups.

(** * generate_dyslexia_ui *)

Section GenerateDyslexiaUI.

(** C9.  For every component type other than button, text, input and card,
    whatever the content and the intent, the markup is the empty string and
    the call returns the usual single text block: the heading with the
    component type, the empty markup between the blank lines, and the
    feature notes. *)
Theorem dyslexia_ui_unknown_component (componentType content : string)
    (intent : option string) :
  ~ In componentType [ "button"; "text"; "input"; "card" ] ->
  component componentType (getColorScheme (orDefault intent "primary")) content
    = "" /\
  generateDyslexiaUI componentType content intent
    = textResponse
        ("Generated dyslexia-friendly " ++ componentType ++ " component:" ++
         nl ++ nl ++ "" ++ nl ++ nl ++ featureNotes) /\
  Substring "Features:" featureNotes.
Proof.
  intros Hnot.
  assert (E : forall colors, component componentType colors content = "").
  { intros colors. unfold component.
    destruct (String.eqb_spec componentType "button") as [-> | _];
      [elim Hnot; simpl; tauto|].
    destruct (String.eqb_spec componentType "text") as [-> | _];
      [elim Hnot; simpl; tauto|].
    destruct (String.eqb_spec componentType "input") as [-> | _];
      [elim Hnot; simpl; tauto|].
    destruct (String.eqb_spec componentType "card") as [-> | _];
      [elim Hnot; simpl; tauto|].
    reflexivity. }
  split; [apply E|]. split.
  - unfold generateDyslexiaUI, dyslexiaUIReport. now rewrite E.
  - unfold featureNotes. apply Substring_app_l, Substring_refl.
Qed.

(** The theorem at the component type [slider]. *)
Lemma dyslexia_ui_unknown_component_witness :
  component "slider" (getColorScheme (orDefault None "primary")) "Hi" = "" /\
  generateDyslexiaUI "slider" "Hi" None
    = textResponse
        ("Generated dyslexia-friendly " ++ "slider" ++ " component:" ++
         nl ++ nl ++ "" ++ nl ++ nl ++ featureNotes) /\
  Substring "Features:" featureNotes.
Proof.
  apply (dyslexia_ui_unknown_component "slider" "Hi" None).
  simpl. intuition discriminate.
Defined.

End GenerateDyslexiaUI.

(** * Further properties of the handlers *)

Section Raising.

Variable builtinTruthy : string -> string -> bool.




End Raising.

(** * More facts about strings *)

Section MoreStringFacts.

Lemma lowerChar_idem (c : ascii) : lowerChar (lowerChar c) = lowerChar c.
Proof. destruct c as [[] [] [] [] [] [] [] []]; reflexivity. Qed.

Lemma lowerChar_upperChar (c : ascii) : lowerChar (upperChar c) = lowerChar c.
Proof. destruct c as [[] [] [] [] [] [] [] []]; reflexivity. Qed.

Lemma toLowerCase_idem (s : string) : toLowerCase (toLowerCase s) = toLowerCase s.
Proof.
  induction s as [|c s IH]; simpl; [reflexivity|].
  now rewrite lowerChar_idem, IH.
Qed.

Lemma toLowerCase_toUpperCase (s : string) :
  toLowerCase (toUpperCase s) = toLowerCase s.
Proof.
  induction s as [|c s IH]; simpl; [reflexivity|].
  now rewrite lowerChar_upperChar, IH.
Qed.

Lemma toLowerCase_app (a b : string) :
  toLowerCase (a ++ b) = toLowerCase a ++ toLowerCase b.
Proof. induction a as [|c a IH]; simpl; [reflexivity | now rewrite IH]. Qed.

Lemma Substring_toLowerCase (w s : string) :
  Substring w s -> Substring (toLowerCase w) (toLowerCase s).
Proof.
  intros [pre [post ->]]. exists (toLowerCase pre), (toLowerCase post).
  now rewrite !toLowerCase_app.
Qed.

Lemma Substring_trans (a b c : string) :
  Substring a b -> Substring b c -> Substring a c.
Proof.
  intros [p1 [q1 ->]] [p2 [q2 ->]]. exists (p2 ++ p1), (q1 ++ q2).
  now rewrite !string_app_assoc.
Qed.

Lemma string_app_inv_head (a b c : string) : a ++ b = a ++ c -> b = c.
Proof.
  induction a as [|x a IH]; simpl; intros H; [assumption|].
  injection H as H. now apply IH.
Qed.

Lemma string_length_app (a b : string) :
  String.length (a ++ b) = (String.length a + String.length b)%nat.
Proof. induction a as [|x a IH]; simpl; [reflexivity | now rewrite IH]. Qed.

Lemma string_app_inv_tail (a b c : string) : a ++ c = b ++ c -> a = b.
Proof.
  revert b; induction a as [|x a IH]; intros [|y b] H; simpl in H.
  - reflexivity.
  - exfalso. apply (f_equal String.length) in H. simpl in H.
    rewrite string_length_app in H. lia.
  - exfalso. apply (f_equal String.length) in H. simpl in H.
    rewrite string_length_app in H. lia.
  - injection H as -> H. f_equal. now apply IH.
Qed.

(** A message that wraps a word in a fixed text and double quotes tells the
    word. *)
Lemma quoted_message_inj (label a b : string) :
  label ++ dq ++ a ++ dq = label ++ dq ++ b ++ dq -> a = b.
Proof.
  intros H. apply string_app_inv_head, string_app_inv_head in H.
  now apply string_app_inv_tail in H.
Qed.

Lemma Substring_suffix (pre w : string) : Substring w (pre ++ w).
Proof. apply Substring_app_r, Substring_refl. Qed.

Lemma NoDup_strings (l : list string) : distinctb l = true -> NoDup l.
Proof.
  induction l as [|x l IH]; intros H; constructor.
  - simpl in H. apply andb_true_iff in H. destruct H as [H _].
    apply negb_true_iff in H. intros Hin.
    apply arrayIncludes_In in Hin. congruence.
  - apply IH. simpl in H. apply andb_true_iff in H. tauto.
Qed.

End MoreStringFacts.

(** Decides the comparisons of two literal strings in the goal. *)
Ltac eval_eqb :=
  repeat match goal with
         | |- context [String.eqb ?a ?b] =>
             let v := eval vm_compute in (String.eqb a b) in
             change (String.eqb a b) with v
         end;
  cbv iota.

(** * The dispatcher and the tool catalog *)

Section DispatcherFacts.

Variable builtinTruthy : string -> string -> bool.

Lemma ofOutcome_not_error (o : outcome) (message : string) :
  ofOutcome o <> RaisesError message.
Proof. destruct o; discriminate. Qed.

(** A listed tool never ends in the dispatcher's [Error]. *)
Lemma listed_tool_no_error (name : string) (args : option Args.t)
    (message : string) :
  In name Catalog.toolNames ->
  callTool builtinTruthy name args <> RaisesError message.
Proof.
  intros H. cbv [Catalog.toolNames Catalog.tools map Catalog.name] in H.
  simpl in H.
  repeat (destruct H as [<- | H];
          [unfold callTool; eval_eqb;
           first [ apply ofOutcome_not_error
                 | destruct args as [a|]; try discriminate;
                   cbv [Handler.generateDyslexiaUI Handler.reviewTraumaContent
                        Handler.validateOGActivity Handler.generatePhonemeActivity
                        Handler.reviewCodeSafety Handler.generateStressProtocol
                        Handler.generateEngagementActivity
                        Handler.validateEngagementSafety];
                   repeat match goal with
                          | |- context [match ?x with _ => _ end] =>
                              destruct x; try discriminate
                          end;
                   try apply ofOutcome_not_error ] |]).
  contradiction.
Qed.

(** The dispatcher and the catalog know the same tools.  The catalog lists
    eight names without repetition; a call under any other name ends in the
    error [Unknown tool: <name>], whatever the arguments, and a call under a
    listed name never ends in that error. *)
Theorem dispatcher_matches_catalog (name : string) (args : option Args.t) :
  NoDup Catalog.toolNames /\
  List.length Catalog.toolNames = 8%nat /\
  (~ In name Catalog.toolNames ->
   callTool builtinTruthy name args = RaisesError ("Unknown tool: " ++ name)) /\
  (In name Catalog.toolNames ->
   forall message, callTool builtinTruthy name args <> RaisesError message).
Proof.
  split; [|split; [reflexivity|split]].
  - cbv [Catalog.toolNames Catalog.tools map Catalog.name].
    repeat (constructor; [simpl; intuition discriminate|]). constructor.
  - intros Hn. cbv [Catalog.toolNames Catalog.tools map Catalog.name] in Hn.
    unfold callTool.
    repeat match goal with
           | |- context [String.eqb name ?k] =>
               destruct (String.eqb_spec name k) as [-> | _];
               [elim Hn; simpl; tauto|]
           end.
    reflexivity.
  - intros H message. now apply listed_tool_no_error.
Qed.

(** A required field of a conforming arguments object is present. *)
Lemma required_present (tool : Catalog.Tool) (a : Args.t) (key : string) :
  Conforms tool a ->
  In key (Catalog.required (Catalog.inputSchema tool)) ->
  exists v, Args.field a key = Some v.
Proof.
  intros [Hreq _] Hin. specialize (Hreq key Hin).
  destruct (Args.field a key) as [v|]; [now exists v | now elim Hreq].
Qed.

(** An enumerated string field of a conforming arguments object holds one of
    the enumerated values. *)
Lemma enumerated_value (tool : Catalog.Tool) (a : Args.t) (key : string)
    (values : list string) (d s : string) :
  Conforms tool a ->
  In (key, Catalog.enumerated values d)
     (Catalog.properties (Catalog.inputSchema tool)) ->
  Args.field a key = Some (AString s) ->
  In s values.
Proof.
  intros [_ Hval] Hin Hf. specialize (Hval key _ _ Hin Hf).
  simpl in Hval. now apply arrayIncludes_In.
Qed.

Lemma validateOGActivity_present (activity : json) (targetLevel : Z) :
  exists t, validateOGActivity (Some activity) targetLevel
            = Returns (textResponse t).
Proof.
  unfold validateOGActivity.
  destruct (levelData targetLevel); eexists; reflexivity.
Qed.

(** Arguments that conform to the catalog never make a call raise: for
    every tool of the catalog, when the arguments hold the required fields
    and their enumerated fields hold enumerated values, the call returns one
    text block. *)
Theorem conforming_call_responds (tool : Catalog.Tool) (a : Args.t) :
  In tool Catalog.tools ->
  Conforms tool a ->
  exists t,
    callTool builtinTruthy (Catalog.name tool) (Some a)
    = Responds (textResponse t).
Proof.
  intros Hin Hc. unfold Catalog.tools in Hin. simpl in Hin.
  destruct Hin as [<-|[<-|[<-|[<-|[<-|[<-|[<-|[<-|[]]]]]]]]];
    unfold callTool; cbn [Catalog.name]; eval_eqb.
  - eexists; reflexivity.
  - destruct (required_present _ a "content" Hc) as [v Hv]; [simpl; tauto|].
    unfold Args.field in Hv; eval_eqb.
    unfold Handler.reviewTraumaContent.
    destruct (Args.content a); [eexists; reflexivity | discriminate].
  - destruct (required_present _ a "activity" Hc) as [v Hv]; [simpl; tauto|].
    destruct (required_present _ a "targetLevel" Hc) as [w Hw]; [simpl; tauto|].
    unfold Args.field in Hv, Hw; revert Hv Hw; eval_eqb; intros Hv Hw.
    unfold Handler.validateOGActivity.
    destruct (Args.targetLevel a) as [z|]; [|discriminate].
    destruct (Args.activity a) as [j|]; [|discriminate].
    destruct (validateOGActivity_present j z) as [t ->].
    eexists; reflexivity.
  - destruct (required_present _ a "phoneme" Hc) as [v Hv]; [simpl; tauto|].
    destruct (required_present _ a "modalities" Hc) as [w Hw]; [simpl; tauto|].
    unfold Args.field in Hv, Hw; revert Hv Hw; eval_eqb; intros Hv Hw.
    unfold Handler.generatePhonemeActivity.
    destruct (Args.modalities a); [|discriminate].
    destruct (Args.phoneme a); [|discriminate].
    eexists; reflexivity.
  - destruct (required_present _ a "code" Hc) as [v Hv]; [simpl; tauto|].
    unfold Args.field in Hv; revert Hv; eval_eqb; intros Hv.
    unfold Handler.reviewCodeSafety.
    destruct (Args.code a); [eexists; reflexivity | discriminate].
  - destruct (required_present _ a "triggerType" Hc) as [v Hv]; [simpl; tauto|].
    destruct (required_present _ a "severity" Hc) as [w Hw]; [simpl; tauto|].
    unfold Args.field in Hv, Hw; revert Hv Hw; eval_eqb; intros Hv Hw.
    unfold Handler.generateStressProtocol.
    destruct (Args.triggerType a) as [tt|] eqn:Et; [|discriminate].
    destruct (Args.severity a) as [sv|] eqn:Es; [|discriminate].
    assert (Ht : In tt [ "behavioral"; "physiological"; "performance" ]).
    { eapply (enumerated_value _ a "triggerType"); [exact Hc | simpl; tauto |].
      unfold Args.field; eval_eqb. now rewrite Et. }
    assert (Hs : In sv [ "mild"; "moderate"; "high" ]).
    { eapply (enumerated_value _ a "severity"); [exact Hc | simpl; tauto |].
      unfold Args.field; eval_eqb. now rewrite Es. }
    simpl in Ht, Hs. cbn [show].
    destruct Ht as [<-|[<-|[<-|[]]]]; destruct Hs as [<-|[<-|[<-|[]]]];
      eexists; reflexivity.
  - destruct (required_present _ a "theme" Hc) as [v Hv]; [simpl; tauto|].
    destruct (required_present _ a "inputMethods" Hc) as [w Hw]; [simpl; tauto|].
    unfold Args.field in Hv, Hw; revert Hv Hw; eval_eqb; intros Hv Hw.
    unfold Handler.generateEngagementActivity.
    destruct (Args.inputMethods a) as [im|]; [|discriminate].
    destruct (Args.theme a) as [th|] eqn:Et; [|discriminate].
    assert (Ht : In th [ "dragons"; "space"; "magic"; "animals"; "adventure";
                         "mystery" ]).
    { eapply (enumerated_value _ a "theme"); [exact Hc | simpl; tauto |].
      unfold Args.field; eval_eqb. now rewrite Et. }
    simpl in Ht. cbn [show]. unfold generateEngagementActivity.
    destruct Ht as [<-|[<-|[<-|[<-|[<-|[<-|[]]]]]]];
      eexists; reflexivity.
  - destruct (required_present _ a "mechanic" Hc) as [v Hv]; [simpl; tauto|].
    unfold Args.field in Hv; revert Hv; eval_eqb; intros Hv.
    unfold Handler.validateEngagementSafety.
    destruct (Args.mechanic a); [eexists; reflexivity | discriminate].
Qed.

(** A call raises a [TypeError] when it has no arguments object, for each of
    the eight tools, and when one of these required fields is absent:
    [content] of review_trauma_content, [modalities] of
    generate_phoneme_activity, [code] of review_code_safety, [theme] or
    [inputMethods] of generate_engagement_activity, [mechanic] of
    validate_engagement_safety. *)
Theorem missing_input_raises :
  (forall name, In name Catalog.toolNames ->
                callTool builtinTruthy name None = RaisesTypeError) /\
  (forall name key a,
      In (name, key) raisingFields ->
      Args.field a key = None ->
      callTool builtinTruthy name (Some a) = RaisesTypeError).
Proof.
  split.
  - intros name H. cbv [Catalog.toolNames Catalog.tools map Catalog.name] in H.
    simpl in H.
    repeat (destruct H as [<- | H]; [reflexivity|]). contradiction.
  - intros name key a H Hf. unfold raisingFields in H. simpl in H.
    unfold Args.field in Hf.
    repeat (destruct H as [H | H];
            [injection H as <- <-; revert Hf; eval_eqb; intros Hf;
             unfold callTool; eval_eqb|]); try contradiction.
    + unfold Handler.reviewTraumaContent.
      destruct (Args.content a); [discriminate | reflexivity].
    + unfold Handler.generatePhonemeActivity.
      destruct (Args.modalities a); [discriminate | reflexivity].
    + unfold Handler.reviewCodeSafety.
      destruct (Args.code a); [discriminate | reflexivity].
    + unfold Handler.generateEngagementActivity.
      destruct (Args.theme a); [discriminate|].
      destruct (Args.inputMethods a); reflexivity.
    + unfold Handler.generateEngagementActivity.
      destruct (Args.inputMethods a); [discriminate | reflexivity].
    + unfold Handler.validateEngagementSafety.
      destruct (Args.mechanic a); [discriminate | reflexivity].
Qed.

(** The other required fields may be absent without a raise.
    generate_dyslexia_ui answers for every arguments object;
    validate_og_activity without [targetLevel] answers that the level
    [undefined] is invalid; generate_stress_protocol without [triggerType],
    or without [severity] under a trigger type that names no built-in,
    answers with the invalid-parameters text; generate_phoneme_activity
    without [phoneme] raises when [visual] is among the modalities and else
    answers with an activity that has no [phoneme] key. *)
Theorem missing_input_tolerated (a : Args.t) :
  (exists t, callTool builtinTruthy "generate_dyslexia_ui" (Some a)
             = Responds (textResponse t)) /\
  (Args.targetLevel a = None ->
   callTool builtinTruthy "validate_og_activity" (Some a)
   = Responds (textResponse "❌ Invalid OG level: undefined. Must be 1-3.")) /\
  (Args.triggerType a = None ->
   callTool builtinTruthy "generate_stress_protocol" (Some a)
   = Responds (textResponse invalidProtocolParameters)) /\
  (Args.severity a = None ->
   ~ In (show (Args.triggerType a)) objectPrototypeMembers ->
   callTool builtinTruthy "generate_stress_protocol" (Some a)
   = Responds (textResponse invalidProtocolParameters)) /\
  (Args.phoneme a = None ->
   forall modalities,
     Args.modalities a = Some modalities ->
     (In "visual" modalities ->
      callTool builtinTruthy "generate_phoneme_activity" (Some a)
      = RaisesTypeError) /\
     (~ In "visual" modalities ->
      callTool builtinTruthy "generate_phoneme_activity" (Some a)
      = Responds
          (textResponse
             (phonemeActivityReport "undefined" modalities
                (JObject
                   [ ("type", JString "multisensory_practice");
                     ("components",
                      JObject (phonemeComponents "undefined" modalities)) ]))))).
Proof.
  split; [eexists; reflexivity|].
  split; [intros H; unfold callTool; eval_eqb;
          unfold Handler.validateOGActivity; now rewrite H|].
  split; [intros H; unfold callTool; eval_eqb;
          unfold Handler.generateStressProtocol; now rewrite H|].
  split.
  - intros Hs Hn. unfold callTool; eval_eqb.
    unfold Handler.generateStressProtocol. rewrite Hs. cbn [show].
    generalize dependent (show (Args.triggerType a)). intros tt Hn.
    unfold generateStressProtocol, selectProtocol, getProp.
    destruct (getOwn protocols tt) as [table|] eqn:E.
    + assert (Ht : table = behavioral \/ table = physiological).
      { unfold protocols, getOwn in E.
        destruct (String.eqb "behavioral" tt); [left; congruence|].
        destruct (String.eqb "physiological" tt); [right; congruence|].
        discriminate. }
      destruct Ht as [-> | ->]; reflexivity.
    + destruct (arrayIncludes objectPrototypeMembers tt) eqn:Ea.
      * apply arrayIncludes_In in Ea. contradiction.
      * reflexivity.
  - intros Hp modalities Hm. unfold callTool; eval_eqb.
    unfold Handler.generatePhonemeActivity. rewrite Hm, Hp.
    split; intros Hv.
    + apply arrayIncludes_In in Hv. now rewrite Hv.
    + destruct (arrayIncludes modalities "visual") eqn:E.
      * apply arrayIncludes_In in E. contradiction.
      * reflexivity.
Qed.

Lemma component_nonempty (colors : ColorScheme.t) (content : string) :
  buttonComponent colors content <> "" /\
  textComponent colors content <> "" /\
  inputComponent colors content <> "" /\
  cardComponent colors content <> "".
Proof. repeat split; discriminate. Qed.

(** The catalog and the tables of the handlers agree.  Every required field
    is a declared property.  The enumerated component types are exactly the
    ones with markup; the enumerated themes are exactly the keys of the
    themes table; a pair of enumerated trigger type and severity selects a
    protocol exactly when the trigger type is not [performance]; the
    enumerated modalities are the modality names of the validator; each
    enumerated input method has its interaction block. *)
Theorem catalog_matches_tables :
  (forall tool key,
      In tool Catalog.tools ->
      In key (Catalog.required (Catalog.inputSchema tool)) ->
      In key (keys (Catalog.properties (Catalog.inputSchema tool)))) /\
  (forall componentType colors content,
      In componentType (declaredValues "generate_dyslexia_ui" "componentType") <->
      component componentType colors content <> "") /\
  (forall theme,
      In theme (declaredValues "generate_engagement_activity" "theme") <->
      exists t, selectedTheme theme = Own t) /\
  (forall triggerType severity,
      (In triggerType (declaredValues "generate_stress_protocol" "triggerType") /\
       triggerType <> "performance" /\
       In severity (declaredValues "generate_stress_protocol" "severity")) <->
      exists p, selectProtocol builtinTruthy triggerType severity = SelProtocol p) /\
  declaredValues "generate_phoneme_activity" "modalities" = modalityNames /\
  (forall phoneme,
      keys (interactions phoneme
              (declaredValues "generate_engagement_activity" "inputMethods"))
      = declaredValues "generate_engagement_activity" "inputMethods").
Proof.
  split; [|split; [|split; [|split; [|split]]]].
  - intros tool key Ht Hk. unfold Catalog.tools in Ht. simpl in Ht.
    repeat (destruct Ht as [<- | Ht];
            [simpl in Hk |- *; tauto|]).
    contradiction.
  - intros componentType colors content.
    change (declaredValues "generate_dyslexia_ui" "componentType")
      with [ "button"; "text"; "input"; "card" ].
    destruct (component_nonempty colors content) as (Hb & Ht & Hi & Hc).
    unfold component. split.
    + simpl. intros [<-|[<-|[<-|[<-|[]]]]]; assumption.
    + destruct (String.eqb_spec componentType "button") as [-> | _];
        [simpl; tauto|].
      destruct (String.eqb_spec componentType "text") as [-> | _];
        [simpl; tauto|].
      destruct (String.eqb_spec componentType "input") as [-> | _];
        [simpl; tauto|].
      destruct (String.eqb_spec componentType "card") as [-> | _];
        [simpl; tauto|].
      intros H. now elim H.
  - intros theme.
    change (declaredValues "generate_engagement_activity" "theme")
      with (keys themes).
    unfold selectedTheme, getProp. split.
    + unfold themes. simpl.
      intros [<-|[<-|[<-|[<-|[<-|[<-|[]]]]]]]; eexists; reflexivity.
    + intros [t H].
      destruct (getOwn themes theme) as [t'|] eqn:E.
      * clear H. unfold themes in *. cbn [getOwn] in E. cbn [keys map fst].
        repeat match type of E with
               | (if String.eqb ?k theme then _ else _) = _ =>
                   destruct (String.eqb_spec k theme) as [<- | _];
                   [simpl; tauto|]
               end.
        discriminate.
      * destruct (arrayIncludes objectPrototypeMembers theme); discriminate.
  - intros triggerType severity.
    change (declaredValues "generate_stress_protocol" "triggerType")
      with [ "behavioral"; "physiological"; "performance" ].
    change (declaredValues "generate_stress_protocol" "severity")
      with [ "mild"; "moderate"; "high" ].
    split.
    + simpl. intros [Ht [Hn Hs]].
      destruct Ht as [<-|[<-|[<-|[]]]]; [| |now elim Hn];
        destruct Hs as [<-|[<-|[<-|[]]]]; eexists; reflexivity.
    + intros [p H]. unfold selectProtocol, getProp in H.
      destruct (getOwn protocols triggerType) as [table|] eqn:Et.
      * unfold protocols in Et. cbn [getOwn] in Et.
        assert (Hs : forall tb : list (string * Protocol),
                   keys tb = [ "mild"; "moderate"; "high" ] ->
                   getOwn tb severity <> None ->
                   In severity [ "mild"; "moderate"; "high" ]).
        { intros tb Hk Hg. rewrite <- Hk. clear Hk.
          induction tb as [|[k v] tb IH]; [now elim Hg|].
          simpl in *. destruct (String.eqb_spec k severity); [now left|].
          right. now apply IH. }
        assert (Hown : getOwn table severity <> None).
        { destruct (getOwn table severity); [discriminate|].
          destruct (arrayIncludes objectPrototypeMembers severity);
            discriminate. }
        destruct (String.eqb_spec "behavioral" triggerType) as [<- | _].
        -- injection Et as <-. split; [simpl; tauto|].
           split; [discriminate|]. now apply (Hs behavioral).
        -- destruct (String.eqb_spec "physiological" triggerType) as [<- | _];
             [|discriminate].
           injection Et as <-. split; [simpl; tauto|].
           split; [discriminate|]. now apply (Hs physiological).
      * destruct (arrayIncludes objectPrototypeMembers triggerType);
          [destruct (builtinTruthy triggerType severity)|]; discriminate.
  - reflexivity.
  - intros phoneme. reflexivity.
Qed.

End DispatcherFacts.

(** The conforming-call theorem at generate_stress_protocol with the
    reserved trigger type [performance]. *)
Lemma conforming_call_responds_witness :
  exists t,
    callTool (fun _ _ => false) "generate_stress_protocol" (Some stressArgs)
    = Responds (textResponse t).
Proof.
  apply (conforming_call_responds (fun _ _ => false)
           (nth 5 Catalog.tools (Catalog.mkTool "" "" (Catalog.mkInputSchema "" [] [])))
           stressArgs).
  - simpl. tauto.
  - split.
    + intros key H. simpl in H.
      destruct H as [<-|[<-|[]]]; discriminate.
    + intros key p v H Hf. simpl in H.
      destruct H as [H|[H|[]]]; injection H as <- <-;
        vm_compute in Hf; injection Hf as <-; reflexivity.
Defined.

(** * The raise of the engagement generator *)

(** [generateEngagementActivity] raises exactly for the themes that are
    neither a key of the themes table nor the name of a built-in inherited
    from [Object.prototype]: the lookup gives [undefined] and the story reads
    its [setting].  For an inherited name it answers, with a story that has
    no setting. *)
Theorem engagement_activity_raises (phoneme theme : string)
    (inputMethods : list string) (stressLevel : option string) :
  generateEngagementActivity phoneme theme inputMethods stressLevel = TypeError
  <-> ~ In theme (keys themes) /\ ~ In theme objectPrototypeMembers.
Proof.
  unfold generateEngagementActivity, selectedTheme, getProp.
  rewrite <- (arrayIncludes_In objectPrototypeMembers theme).
  destruct (getOwn themes theme) as [t|] eqn:E.
  - split; [discriminate|]. intros [Hk _]. elim Hk.
    unfold themes in *. cbn [getOwn] in E. cbn [keys map fst].
    repeat match type of E with
           | (if String.eqb ?k theme then _ else _) = _ =>
               destruct (String.eqb_spec k theme) as [<- | _];
               [simpl; tauto|]
           end.
    discriminate.
  - assert (Hk : ~ In theme (keys themes)).
    { unfold themes in *. cbn [getOwn] in E. cbn [keys map fst].
      repeat match type of E with
             | (if String.eqb ?k theme then _ else _) = _ =>
                 destruct (String.eqb_spec k theme) as [<- | ?];
                 [discriminate|]
             end.
      simpl. intuition. }
    destruct (arrayIncludes objectPrototypeMembers theme); split.
    + discriminate.
    + intros [_ H]. now elim H.
    + intros _. split; [exact Hk | discriminate].
    + reflexivity.
Qed.

(** * Properties of the three reviewers *)

(** The trauma review and the engagement review do not depend on the case of
    their text: the upper-cased and the lower-cased text get the review of the
    text itself. *)
Theorem reviews_ignore_case (text : string) :
  traumaReview (toUpperCase text) = traumaReview text /\
  traumaReview (toLowerCase text) = traumaReview text /\
  engagementReview (toUpperCase text) = engagementReview text /\
  engagementReview (toLowerCase text) = engagementReview text.
Proof.
  unfold traumaReview, scanPressure, scanAvoid, engagementReview.
  now rewrite toLowerCase_toUpperCase, toLowerCase_idem.
Qed.

Section ReviewerFacts.

Import TRAUMA_INFORMED_PRINCIPLES.

Lemma in_filter_includes (s s' : string) (f : string -> string)
    (words : list string) (w : string) :
  Substring s s' ->
  In w (filter (fun x => includes s (f x)) words) ->
  In w (filter (fun x => includes s' (f x)) words).
Proof.
  intros Hs. rewrite !filter_In, !includes_Substring.
  intros [Hin H]. split; [assumption|]. now apply Substring_trans with s.
Qed.

(** Issues survive embedding: when a text occurs inside a larger text, every
    issue of the trauma review and of the engagement review of the part is an
    issue of the whole; so the parts of a compliant text are compliant. *)
Theorem issues_survive_embedding (part whole : string) :
  Substring part whole ->
  (forall issue, In issue (tr_issues (traumaReview part)) ->
                 In issue (tr_issues (traumaReview whole))) /\
  (forall issue, In issue (er_issues (engagementReview part)) ->
                 In issue (er_issues (engagementReview whole))) /\
  (isTraumaInformed (traumaReview whole) = true ->
   isTraumaInformed (traumaReview part) = true) /\
  (er_isSafe (engagementReview whole) = true ->
   er_isSafe (engagementReview part) = true).
Proof.
  intros Hs. apply Substring_toLowerCase in Hs.
  assert (T : forall issue, In issue (tr_issues (traumaReview part)) ->
                            In issue (tr_issues (traumaReview whole))).
  { intros issue. rewrite !traumaReview_issues, !in_app_iff, !in_map_iff.
    intros [[w [<- Hw]] | [w [<- Hw]]]; [left | right]; exists w;
      (split; [reflexivity|]).
    - now apply (in_filter_includes _ _ toLowerCase _ _ Hs).
    - now apply (in_filter_includes _ _ (fun x => x) _ _ Hs). }
  assert (E : forall issue, In issue (er_issues (engagementReview part)) ->
                            In issue (er_issues (engagementReview whole))).
  { intros issue.
    destruct (engagementReview_closed part) as [-> _].
    destruct (engagementReview_closed whole) as [-> _].
    rewrite !in_app_iff, !in_map_iff, !in_whenb, !existsb_includes_Matches.
    assert (M : forall phrases, Matches phrases (toLowerCase part) ->
                                Matches phrases (toLowerCase whole)).
    { intros phrases [p [Hp H]]. exists p. split; [assumption|].
      now apply Substring_trans with (toLowerCase part). }
    intros [[w [<- Hw]] | [[H ->] | [[H ->] | [H ->]]]].
    - left. exists w. split; [reflexivity|].
      now apply (in_filter_includes _ _ (fun x => x) _ _ Hs).
    - right; left. split; [now apply M | reflexivity].
    - right; right; left. split; [now apply M | reflexivity].
    - right; right; right. split; [now apply M | reflexivity]. }
  split; [exact T|]. split; [exact E|]. split.
  - rewrite !traumaReview_flag. intros Hw.
    destruct (tr_issues (traumaReview part)) as [|i l] eqn:Ep; [reflexivity|].
    rewrite Hw in T. elim (T i). now left.
  - intros Hw.
    apply (proj2 (proj2 (engagementReview_closed whole))) in Hw.
    apply (proj2 (proj2 (engagementReview_closed part))).
    destruct (er_issues (engagementReview part)) as [|i l] eqn:Ep; [reflexivity|].
    rewrite Hw in E. elim (E i). now left.
Qed.

(** The theorem at a flagged phrase inside a sentence. *)
Lemma issues_survive_embedding_witness :
  (forall issue, In issue (tr_issues (traumaReview "try again")) ->
                 In issue (tr_issues (traumaReview "Please try again later"))) /\
  (forall issue, In issue (er_issues (engagementReview "try again")) ->
                 In issue (er_issues (engagementReview "Please try again later"))) /\
  (isTraumaInformed (traumaReview "Please try again later") = true ->
   isTraumaInformed (traumaReview "try again") = true) /\
  (er_isSafe (engagementReview "Please try again later") = true ->
   er_isSafe (engagementReview "try again") = true).
Proof.
  apply (issues_survive_embedding "try again" "Please try again later").
  exists "Please ", " later". reflexivity.
Defined.

Lemma triggeringWord_inj (a b : string) :
  triggeringWord a = triggeringWord b -> a = b.
Proof.
  apply quoted_message_inj.
Qed.

Lemma pressuringElement_inj (a b : string) :
  pressuringElement a = pressuringElement b -> a = b.
Proof.
  apply quoted_message_inj.
Qed.

Lemma triggering_issue_occurs (content phrase : string) :
  In (triggeringWord phrase) (tr_issues (traumaReview content)) ->
  Substring (toLowerCase phrase) (toLowerCase content).
Proof.
  rewrite traumaReview_issues, in_app_iff, !in_map_iff.
  intros [[w [E Hw]] | [w [E _]]].
  - apply triggeringWord_inj in E. subst w.
    apply filter_In in Hw. now apply includes_Substring.
  - discriminate E.
Qed.

Lemma red_flag_issue_occurs (mechanic flag : string) :
  In flag redFlags ->
  In (pressuringElement flag) (er_issues (engagementReview mechanic)) ->
  Substring flag (toLowerCase mechanic).
Proof.
  intros Hflag. destruct (engagementReview_closed mechanic) as [-> _].
  rewrite !in_app_iff, in_map_iff, !in_whenb.
  intros [[w [E Hw]] | [[_ E] | [[_ E] | [_ E]]]].
  - apply pressuringElement_inj in E. subst w.
    apply filter_In in Hw. now apply includes_Substring.
  - discriminate E.
  - discriminate E.
  - discriminate E.
Qed.

(** Phrases that contain one another are reported together.  An avoid
    phrase that holds a pressure word ([you should], [you need to]) is never
    reported without that pressure word; a red flag that holds another red
    flag is never reported without it; the red flag [timer] always comes with
    the time-pressure issue and its advice, and [reward points] with the red
    flag [points] and the extrinsic-reward issue and advice. *)
Theorem overlapping_phrases_report_twice :
  (forall content phrase word,
      In phrase avoid -> In word pressureWords ->
      Substring word (toLowerCase phrase) ->
      In (triggeringWord phrase) (tr_issues (traumaReview content)) ->
      In (pressureWord word) (tr_issues (traumaReview content))) /\
  (forall mechanic flag other,
      In flag redFlags -> In other redFlags ->
      Substring other flag ->
      In (pressuringElement flag) (er_issues (engagementReview mechanic)) ->
      In (pressuringElement other) (er_issues (engagementReview mechanic))) /\
  (forall mechanic,
      In (pressuringElement "timer") (er_issues (engagementReview mechanic)) ->
      In timePressureIssue (er_issues (engagementReview mechanic)) /\
      In timePressureAdvice (er_recommendations (engagementReview mechanic))) /\
  (forall mechanic,
      In (pressuringElement "reward points")
         (er_issues (engagementReview mechanic)) ->
      In (pressuringElement "points") (er_issues (engagementReview mechanic)) /\
      In extrinsicIssue (er_issues (engagementReview mechanic)) /\
      In extrinsicAdvice (er_recommendations (engagementReview mechanic))).
Proof.
  assert (F : forall mechanic flag other,
             In flag redFlags -> In other redFlags ->
             Substring other flag ->
             In (pressuringElement flag) (er_issues (engagementReview mechanic)) ->
             In (pressuringElement other) (er_issues (engagementReview mechanic))).
  { intros mechanic flag other Hf Ho Hsub Hin.
    pose proof (red_flag_issue_occurs mechanic flag Hf Hin) as Hocc.
    destruct (engagementReview_closed mechanic) as [-> _].
    apply in_or_app; left. apply in_map, filter_In. split; [assumption|].
    apply includes_Substring. now apply Substring_trans with flag. }
  assert (G : forall mechanic flag phrases issue advice,
             In flag redFlags ->
             Matches phrases flag ->
             In (issue, advice, phrases)
                [ (extrinsicIssue, extrinsicAdvice, extrinsicPhrases);
                  (comparisonIssue, comparisonAdvice, comparisonPhrases);
                  (timePressureIssue, timePressureAdvice, timePressurePhrases) ] ->
             In (pressuringElement flag) (er_issues (engagementReview mechanic)) ->
             In issue (er_issues (engagementReview mechanic)) /\
             In advice (er_recommendations (engagementReview mechanic))).
  { intros mechanic flag phrases issue advice Hf [p [Hp Hsub]] Hfam Hin.
    pose proof (red_flag_issue_occurs mechanic flag Hf Hin) as Hocc.
    assert (M : existsb (includes (toLowerCase mechanic)) phrases = true).
    { apply existsb_includes_Matches. exists p. split; [assumption|].
      now apply Substring_trans with flag. }
    destruct (engagementReview_closed mechanic) as [-> [-> _]].
    simpl in Hfam.
    destruct Hfam as [E | [E | [E | []]]]; injection E as <- <- <-;
      rewrite !in_app_iff, !in_whenb; tauto. }
  split; [|split; [exact F|split]].
  - intros content phrase word Hp Hw Hsub Hin.
    apply triggering_issue_occurs in Hin.
    rewrite traumaReview_issues. apply in_or_app; right.
    apply in_map, filter_In. split; [assumption|].
    apply includes_Substring.
    now apply Substring_trans with (toLowerCase phrase).
  - intros mechanic Hin.
    apply (G mechanic "timer" timePressurePhrases); try assumption.
    + simpl; tauto.
    + exists "time". split; [simpl; tauto|].
      apply includes_Substring. reflexivity.
    + simpl; tauto.
  - intros mechanic Hin. split.
    + apply (F mechanic "reward points" "points"); try assumption;
        try (simpl; tauto).
      apply includes_Substring. reflexivity.
    + apply (G mechanic "reward points" extrinsicPhrases); try assumption.
      * simpl; tauto.
      * exists "reward". split; [simpl; tauto|].
        apply includes_Substring. reflexivity.
      * simpl; tauto.
Qed.

(** The first part at the avoid phrase [you should]. *)
Lemma overlapping_phrases_report_twice_witness :
  In (pressureWord "should") (tr_issues (traumaReview "You should rest")).
Proof.
  apply (proj1 overlapping_phrases_report_twice "You should rest" "you should").
  - simpl; tauto.
  - simpl; tauto.
  - apply includes_Substring. reflexivity.
  - vm_compute. tauto.
Defined.

Lemma NoDup_messages (label : string) (test : string -> bool)
    (words : list string) :
  NoDup words ->
  NoDup (map (fun w => label ++ dq ++ w ++ dq) (filter test words)).
Proof.
  intros H. apply NoDup_map_NoDup_ForallPairs.
  - intros x y _ _ E. now apply quoted_message_inj in E.
  - now apply NoDup_filter.
Qed.

Lemma length_messages (A : Type) (f : string -> A) (test : string -> bool)
    (words : list string) :
  (List.length (map f (filter test words)) <= List.length words)%nat.
Proof.
  rewrite length_map. induction words as [|w words IH]; simpl; [lia|].
  destruct (test w); simpl; lia.
Qed.

(** No validator reports an issue twice, and the number of issues is
    bounded by the size of the tables: at most 15 for the trauma review, 21
    for the engagement review and 3 for the code review. *)
Theorem issues_never_repeat (content mechanic code : string) :
  NoDup (tr_issues (traumaReview content)) /\
  NoDup (er_issues (engagementReview mechanic)) /\
  NoDup (cr_issues (codeReview code)) /\
  (List.length (tr_issues (traumaReview content)) <= 15)%nat /\
  (List.length (er_issues (engagementReview mechanic)) <= 21)%nat /\
  (List.length (cr_issues (codeReview code)) <= 3)%nat.
Proof.
  assert (Na : NoDup avoid) by (apply NoDup_strings; reflexivity).
  assert (Np : NoDup pressureWords) by (apply NoDup_strings; reflexivity).
  assert (Nr : NoDup redFlags) by (apply NoDup_strings; reflexivity).
  rewrite traumaReview_issues.
  destruct (engagementReview_closed mechanic) as [-> _].
  destruct (codeReview_closed code) as [-> _].
  split; [|split; [|split; [|split; [|split]]]].
  - apply NoDup_app.
    + now apply (NoDup_messages "Contains potentially triggering word: ").
    + now apply (NoDup_messages "May create pressure with word: ").
    + intros i H1 H2. apply in_map_iff in H1, H2.
      destruct H1 as [a [<- _]], H2 as [p [E _]]. discriminate E.
  - apply NoDup_app.
    + now apply (NoDup_messages "Contains potentially pressuring element: ").
    + destruct (existsb _ extrinsicPhrases), (existsb _ comparisonPhrases),
        (existsb _ timePressurePhrases); apply NoDup_strings; reflexivity.
    + intros i H1 H2. apply in_map_iff in H1. destruct H1 as [f [<- _]].
      rewrite !in_app_iff, !in_whenb in H2.
      destruct H2 as [[_ E] | [[_ E] | [_ E]]]; discriminate E.
  - destruct (_ || _ || _), (_ || _), (_ && _);
      apply NoDup_strings; reflexivity.
  - rewrite length_app.
    pose proof (length_messages _ triggeringWord
                  (fun w => includes (toLowerCase content) (toLowerCase w)) avoid)
      as H1.
    pose proof (length_messages _ pressureWord
                  (fun w => includes (toLowerCase content) w) pressureWords)
      as H2.
    change (List.length avoid) with 10%nat in H1.
    change (List.length pressureWords) with 5%nat in H2. lia.
  - rewrite length_app.
    pose proof (length_messages _ pressuringElement
                  (includes (toLowerCase mechanic)) redFlags) as H1.
    change (List.length redFlags) with 18%nat in H1.
    assert (H2 : forall b1 b2 b3 i1 i2 i3,
               (List.length (whenb b1 i1 ++ whenb b2 i2 ++ whenb b3 i3) <= 3)%nat)
      by (intros [] [] [] ? ? ?; simpl; lia).
    specialize (H2 (existsb (includes (toLowerCase mechanic)) extrinsicPhrases)
                   (existsb (includes (toLowerCase mechanic)) comparisonPhrases)
                   (existsb (includes (toLowerCase mechanic)) timePressurePhrases)
                   extrinsicIssue comparisonIssue timePressureIssue).
    lia.
  - destruct (_ || _ || _), (_ || _), (_ && _); cbn [whenb app List.length]; lia.
Qed.

End ReviewerFacts.

(** Evaluates the flag on the left of the goal. *)
Ltac eval_flag :=
  match goal with
  | |- ?f = ?b <-> _ =>
      let v := eval vm_compute in f in
      replace f with v by (vm_compute; reflexivity)
  | |- ?f = ?b =>
      let v := eval vm_compute in f in
      replace f with v by (vm_compute; reflexivity)
  end.

Ltac each_entry H :=
  simpl in H;
  repeat (destruct H as [<- | H];
          [eval_flag;
           first [ reflexivity
                 | split; intros E;
                   first [ reflexivity | discriminate E
                         | left; reflexivity | right; reflexivity
                         | destruct E as [E | E]; discriminate E ] ] |]);
  contradiction.

(** The advice of the reviewers under their own review.  Of the four
    positive alternatives that the trauma review offers, exactly [Want to try
    another way?] is itself flagged; the encouraged phrases all pass.  Of the
    twelve alternatives that the engagement review offers, exactly [learn] is
    flagged; its three positive suggestions pass; of its three pieces of
    advice, the comparison advice and the time-pressure advice are flagged. *)
Theorem advice_under_review :
  (forall a, In a positiveAlternatives ->
             (isTraumaInformed (traumaReview a) = false <->
              a = "Want to try another way?")) /\
  (forall a, In a TRAUMA_INFORMED_PRINCIPLES.encourage ->
             isTraumaInformed (traumaReview a) = true) /\
  (forall a, In a safeAlternatives ->
             (er_isSafe (engagementReview a) = false <-> a = "learn")) /\
  (forall a, In a positiveSuggestions -> er_isSafe (engagementReview a) = true) /\
  (forall a, In a [ extrinsicAdvice; comparisonAdvice; timePressureAdvice ] ->
             (er_isSafe (engagementReview a) = false <->
              a = comparisonAdvice \/ a = timePressureAdvice)).
Proof.
  split; [intros a H; unfold positiveAlternatives in H; each_entry H|].
  split; [intros a H; unfold TRAUMA_INFORMED_PRINCIPLES.encourage in H;
          each_entry H|].
  split; [intros a H; unfold safeAlternatives in H; each_entry H|].
  split; [intros a H; unfold positiveSuggestions in H; each_entry H|].
  intros a H; each_entry H.
Qed.

(** In the code review each issue comes with its advice and each advice with
    its issue; the reinforcement advice is added exactly when the code holds
    none of [celebrate], [great], [nice work]; so there are as many
    recommendations as issues, or one more. *)
Theorem code_review_pairs_issue_with_advice (code : string) :
  (In failureStateIssue (cr_issues (codeReview code)) <->
   In failureStateAdvice (cr_recommendations (codeReview code))) /\
  (In timeLimitIssue (cr_issues (codeReview code)) <->
   In timeLimitAdvice (cr_recommendations (codeReview code))) /\
  (In accessibilityIssue (cr_issues (codeReview code)) <->
   In accessibilityAdvice (cr_recommendations (codeReview code))) /\
  (In reinforcementAdvice (cr_recommendations (codeReview code)) <->
   ~ (Substring "celebrate" code \/ Substring "great" code \/
      Substring "nice work" code)) /\
  (List.length (cr_issues (codeReview code))
   <= List.length (cr_recommendations (codeReview code))
   <= List.length (cr_issues (codeReview code)) + 1)%nat.
Proof.
  rewrite <- !includes_Substring.
  unfold codeReview.
  generalize (includes code "fail" || includes code "error" || includes code "wrong").
  generalize (includes code "timeout" || includes code "time limit").
  generalize (includes code "onClick" && negb (includes code "aria-label")).
  destruct (includes code "celebrate"), (includes code "great"),
           (includes code "nice work");
    intros b3 b2 b1; destruct b1, b2, b3;
    cbn [cr_issues cr_recommendations orb negb push app List.length In];
    repeat split; intros; try lia;
    repeat match goal with
           | H : _ \/ _ |- _ => destruct H as [H | H]
           | H : False |- _ => contradiction
           | H : _ = _ |- _ => discriminate H
           end;
    try tauto; try (exfalso; tauto).
Qed.

(** * Properties of the Orton-Gillingham validator *)

(** For a level that resolves, the banner and the issues of the validation
    agree: [meetsLevel] holds exactly when there is no issue; there is a
    recommendation exactly when the activity is not multisensory; and there
    are at most two issues. *)
Theorem og_banner_matches_issues (activityString : string) (targetLevel : Z)
    (level : CurriculumLevel) :
  levelData targetLevel = Some level ->
  (meetsLevel (ogValidation activityString targetLevel level) = true <->
   og_issues (ogValidation activityString targetLevel level) = []) /\
  (og_recommendations (ogValidation activityString targetLevel level) = [] <->
   isMultisensory (ogValidation activityString targetLevel level) = true) /\
  List.length (og_issues (ogValidation activityString targetLevel level)) <= 2.
Proof.
  intros Hlevel.
  destruct (levelData_index _ _ Hlevel) as [n [Hn _]].
  destruct (phonemes_defined n level Hn) as [ps Hps].
  unfold ogValidation. rewrite Hps.
  cbn [meetsLevel og_issues og_recommendations isMultisensory].
  destruct (2 <=? _)%nat; destruct (existsb _ ps);
    cbn [negb andb push app List.length];
    repeat split; intros; try discriminate; try reflexivity; lia.
Qed.

(** The theorem at level 1. *)
Lemma og_banner_matches_issues_witness :
  (meetsLevel
     (ogValidation "visual tactile" 1
        (mkLevel (Some ["a"; "b"; "c"; "d"; "e"; "f"; "g"; "h"; "i"])
                 None "Single letter sounds" 90)) = true <->
   og_issues
     (ogValidation "visual tactile" 1
        (mkLevel (Some ["a"; "b"; "c"; "d"; "e"; "f"; "g"; "h"; "i"])
                 None "Single letter sounds" 90)) = []) /\
  (og_recommendations
     (ogValidation "visual tactile" 1
        (mkLevel (Some ["a"; "b"; "c"; "d"; "e"; "f"; "g"; "h"; "i"])
                 None "Single letter sounds" 90)) = [] <->
   isMultisensory
     (ogValidation "visual tactile" 1
        (mkLevel (Some ["a"; "b"; "c"; "d"; "e"; "f"; "g"; "h"; "i"])
                 None "Single letter sounds" 90)) = true) /\
  List.length
    (og_issues
       (ogValidation "visual tactile" 1
          (mkLevel (Some ["a"; "b"; "c"; "d"; "e"; "f"; "g"; "h"; "i"])
                   None "Single letter sounds" 90))) <= 2.
Proof.
  apply (og_banner_matches_issues "visual tactile" 1). reflexivity.
Defined.

Section GenerateThenValidate.

(** The serialization of an object holds each of its keys, quoted. *)
Lemma stringify_key (props : list (string * json)) (k : string) :
  In k (keys props) ->
  Substring (JSON.quote k) (JSON.stringify (JObject props)).
Proof.
  intros H. apply in_map_iff in H. destruct H as [[k' x] [E H]].
  simpl in E. subst k'.
  change (JSON.stringify (JObject props))
    with ("{" ++ join ","
                   (map (fun '(k, x) => JSON.quote k ++ ":" ++ JSON.stringify x)
                        props) ++ "}").
  apply Substring_app_r, Substring_app_l.
  apply Substring_trans with (JSON.quote k ++ ":" ++ JSON.stringify x).
  - apply Substring_app_l, Substring_refl.
  - apply Substring_join.
    now apply (in_map (fun '(k, x) => JSON.quote k ++ ":" ++ JSON.stringify x)
                      props (k, x)).
Qed.

(** ... and the serialization of each of its values. *)
Lemma stringify_value (props : list (string * json)) (k : string) (x : json) :
  In (k, x) props ->
  Substring (JSON.stringify x) (JSON.stringify (JObject props)).
Proof.
  intros H.
  change (JSON.stringify (JObject props))
    with ("{" ++ join ","
                   (map (fun '(k, x) => JSON.quote k ++ ":" ++ JSON.stringify x)
                        props) ++ "}").
  apply Substring_app_r, Substring_app_l.
  apply Substring_trans with (JSON.quote k ++ ":" ++ JSON.stringify x).
  - apply Substring_app_r, Substring_app_r, Substring_refl.
  - apply Substring_join.
    now apply (in_map (fun '(k, x) => JSON.quote k ++ ":" ++ JSON.stringify x)
                      props (k, x)).
Qed.

Lemma modality_in_activity (phoneme : string) (modalities : list string)
    (m : string) :
  In m modalityNames -> In m modalities ->
  Substring m (toLowerCase (JSON.stringify (phonemeActivity phoneme modalities))).
Proof.
  intros Hname Hin.
  assert (Hk : In m (keys (phonemeComponents phoneme modalities))).
  { destruct (phonemeComponents_keys phoneme modalities) as [-> _].
    rewrite !in_app_iff, !in_whenb, !arrayIncludes_In.
    simpl in Hname. destruct Hname as [<-|[<-|[<-|[<-|[]]]]]; tauto. }
  assert (Hq : Substring m (JSON.quote m)).
  { simpl in Hname.
    destruct Hname as [<-|[<-|[<-|[<-|[]]]]];
      apply includes_Substring; reflexivity. }
  assert (Hl : toLowerCase m = m).
  { simpl in Hname.
    destruct Hname as [<-|[<-|[<-|[<-|[]]]]]; reflexivity. }
  rewrite <- Hl. apply Substring_toLowerCase.
  apply Substring_trans with (JSON.quote m); [assumption|].
  apply Substring_trans
    with (JSON.stringify (JObject (phonemeComponents phoneme modalities))).
  - now apply stringify_key.
  - apply (stringify_value _ "components"). unfold phonemeActivity.
    simpl; tauto.
Qed.

Lemma type_in_activity (phoneme : string) (modalities : list string) :
  Substring "multisensory_practice"
    (toLowerCase (JSON.stringify (phonemeActivity phoneme modalities))).
Proof.
  change "multisensory_practice" with (toLowerCase "multisensory_practice").
  apply Substring_toLowerCase.
  apply Substring_trans with (JSON.stringify (JString "multisensory_practice")).
  - apply includes_Substring; reflexivity.
  - apply (stringify_value _ "type"). unfold phonemeActivity. simpl; tauto.
Qed.

(** What [generatePhonemeActivity] builds passes [validateOGActivity].  At
    every level from 1 to 3, whatever the phoneme, the generated activity has
    the phoneme focus of the level (its text always holds a letter of the
    level), and with two different modality names among the modalities it
    meets the level with no issue. *)
Theorem generated_activity_validates (phoneme : string)
    (modalities : list string) (targetLevel : Z) :
  (1 <= targetLevel <= 3)%Z ->
  exists level,
    levelData targetLevel = Some level /\
    validateOGActivity (Some (phonemeActivity phoneme modalities)) targetLevel
    = Returns
        (textResponse
           (ogReport targetLevel level
              (validationOf (phonemeActivity phoneme modalities)
                            targetLevel level))) /\
    hasPhonemesFocus
      (validationOf (phonemeActivity phoneme modalities) targetLevel level)
    = true /\
    (forall m1 m2,
        In m1 modalityNames -> In m2 modalityNames -> m1 <> m2 ->
        In m1 modalities -> In m2 modalities ->
        meetsLevel
          (validationOf (phonemeActivity phoneme modalities) targetLevel level)
        = true /\
        og_issues
          (validationOf (phonemeActivity phoneme modalities) targetLevel level)
        = []).
Proof.
  intros Hrange.
  destruct (levelData_in_range targetLevel Hrange) as [level Hlevel].
  exists level. split; [exact Hlevel|].
  split; [unfold validateOGActivity; rewrite Hlevel; reflexivity|].
  unfold validationOf.
  set (s := toLowerCase (JSON.stringify (phonemeActivity phoneme modalities))).
  destruct (levelData_index _ _ Hlevel) as [n [Hn _]].
  destruct (phonemes_defined n level Hn) as [ps Hps].
  assert (Hp : existsb (fun p => includes s (toLowerCase p)) ps = true).
  { assert (T : forall letter,
                Substring letter "multisensory_practice" -> Substring letter s).
    { intros letter H. apply Substring_trans with "multisensory_practice";
        [assumption | apply type_in_activity]. }
    apply existsb_exists.
    destruct n as [|[|[|n]]]; simpl in Hn;
      try (destruct n; discriminate);
      injection Hn as <-; simpl in Hps; injection Hps as <-.
    - exists "a". split; [simpl; tauto|].
      apply includes_Substring, T, includes_Substring. reflexivity.
    - exists "m". split; [simpl; tauto|].
      apply includes_Substring, T, includes_Substring. reflexivity.
    - exists "s". split; [simpl; tauto|].
      apply includes_Substring, T, includes_Substring. reflexivity. }
  split.
  - unfold ogValidation. rewrite Hps. cbn [hasPhonemesFocus]. exact Hp.
  - intros m1 m2 N1 N2 Hne I1 I2.
    assert (Hm : (2 <=? List.length
                          (filter (fun m => includes s m) modalityNames))%nat
                 = true).
    { apply Nat.leb_le. apply (filter_two _ _ modalityNames_NoDup).
      exists m1, m2. repeat split; try assumption;
        apply includes_Substring; now apply modality_in_activity. }
    unfold ogValidation. rewrite Hps.
    cbn [meetsLevel og_issues]. rewrite Hm, Hp. split; reflexivity.
Qed.

End GenerateThenValidate.

(** The theorem at the phoneme [z] and level 1, whose phonemes are [a] to
    [i]. *)
Lemma generated_activity_validates_witness :
  exists level,
    levelData 1 = Some level /\
    validateOGActivity (Some (phonemeActivity "z" [ "visual"; "tactile" ])) 1
    = Returns
        (textResponse
           (ogReport 1 level
              (validationOf (phonemeActivity "z" [ "visual"; "tactile" ])
                            1 level))) /\
    hasPhonemesFocus
      (validationOf (phonemeActivity "z" [ "visual"; "tactile" ]) 1 level)
    = true /\
    (forall m1 m2,
        In m1 modalityNames -> In m2 modalityNames -> m1 <> m2 ->
        In m1 [ "visual"; "tactile" ] -> In m2 [ "visual"; "tactile" ] ->
        meetsLevel
          (validationOf (phonemeActivity "z" [ "visual"; "tactile" ]) 1 level)
        = true /\
        og_issues
          (validationOf (phonemeActivity "z" [ "visual"; "tactile" ]) 1 level)
        = []).
Proof.
  apply (generated_activity_validates "z" [ "visual"; "tactile" ] 1). lia.
Defined.

(** * Properties of the generators *)

(** The interaction blocks of [generateEngagementActivity] follow
    membership only: their keys are the five input-method names that occur
    in [inputMethods], in the fixed order touch, voice, camera, microphone,
    bluetooth; names outside the five, repetitions and the order of
    [inputMethods] change nothing. *)
Theorem interactions_follow_membership (phoneme : string)
    (inputMethods : list string) :
  keys (interactions phoneme inputMethods)
  = filter (arrayIncludes inputMethods) inputMethodNames /\
  (forall k, In k (keys (interactions phoneme inputMethods)) <->
             In k inputMethodNames /\ In k inputMethods) /\
  (forall other,
      (forall k, In k inputMethodNames -> (In k inputMethods <-> In k other)) ->
      interactions phoneme other = interactions phoneme inputMethods).
Proof.
  assert (K : keys (interactions phoneme inputMethods)
              = filter (arrayIncludes inputMethods) inputMethodNames).
  { unfold interactions, inputMethodNames. cbn [filter].
    generalize (touchInteraction phoneme) (voiceInteraction phoneme)
               (cameraInteraction phoneme) microphoneInteraction
               bluetoothInteraction.
    intros t v c m b.
    destruct (arrayIncludes inputMethods "touch"),
             (arrayIncludes inputMethods "voice"),
             (arrayIncludes inputMethods "camera"),
             (arrayIncludes inputMethods "microphone"),
             (arrayIncludes inputMethods "bluetooth"); reflexivity. }
  split; [exact K|]. split.
  - intros k. rewrite K, filter_In, arrayIncludes_In. tauto.
  - intros other H. unfold interactions.
    assert (E : forall k, In k inputMethodNames ->
                          arrayIncludes other k = arrayIncludes inputMethods k).
    { intros k Hk. specialize (H k Hk).
      rewrite <- !arrayIncludes_In in H.
      destruct (arrayIncludes other k), (arrayIncludes inputMethods k);
        intuition congruence. }
    rewrite !E by (unfold inputMethodNames; simpl; tauto). reflexivity.
Qed.

(** The button and input markup of [generateDyslexiaUI] carries the content
    as [aria-label], whatever the content and the intent, and so never gets
    the accessibility issue of [reviewCodeSafety], even for a content that
    holds [onClick]. *)
Theorem labelled_markup_passes_accessibility (componentType content : string)
    (intent : option string) :
  In componentType [ "button"; "input" ] ->
  exists markup,
    generateDyslexiaUI componentType content intent
    = textResponse (dyslexiaUIReport componentType markup) /\
    Substring ("aria-label=" ++ dq ++ content ++ dq) markup /\
    ~ In accessibilityIssue (cr_issues (codeReview markup)).
Proof.
  intros H. eexists. split; [reflexivity|].
  generalize (getColorScheme (orDefault intent "primary")). intros colors.
  assert (S : Substring ("aria-label=" ++ dq ++ content ++ dq)
                (component componentType colors content)).
  { apply Substring_trans with ("  aria-label=" ++ dq ++ content ++ dq);
      [apply (Substring_suffix "  ")|].
    simpl in H. destruct H as [<-|[<-|[]]].
    - change (component "button" colors content)
        with (buttonComponent colors content).
      unfold buttonComponent, lines. apply Substring_app_r.
      apply Substring_join. simpl; tauto.
    - change (component "input" colors content)
        with (inputComponent colors content).
      unfold inputComponent, lines. apply Substring_app_r.
      apply Substring_join. simpl; tauto. }
  split; [exact S|].
  destruct (codeReview_closed (component componentType colors content))
    as [-> _].
  rewrite !in_app_iff, !in_whenb, andb_true_iff, negb_true_iff.
  intros [[_ E] | [[_ E] | [[_ E] _]]]; try discriminate E.
  apply includes_not_Substring in E. apply E.
  apply Substring_trans with ("aria-label=" ++ dq ++ content ++ dq);
    [|exact S].
  apply Substring_app_l.
  exists "", "=". reflexivity.
Qed.

(** The theorem at a button whose content holds [onClick]. *)
Lemma labelled_markup_passes_accessibility_witness :
  exists markup,
    generateDyslexiaUI "button" "onClick" None
    = textResponse (dyslexiaUIReport "button" markup) /\
    Substring ("aria-label=" ++ dq ++ "onClick" ++ dq) markup /\
    ~ In accessibilityIssue (cr_issues (codeReview markup)).
Proof.
  apply (labelled_markup_passes_accessibility "button" "onClick" None).
  simpl. tauto.
Defined.

(** The code snippet of every protocol of the table passes
    [reviewCodeSafety] without an issue. *)
Theorem protocol_code_passes_review (triggerType severity : string)
    (table : list (string * Protocol)) (protocol : Protocol) :
  getOwn protocols triggerType = Some table ->
  getOwn table severity = Some protocol ->
  cr_issues (codeReview (code protocol)) = [] /\
  cr_isSafe (codeReview (code protocol)) = true.
Proof.
  unfold protocols. cbn [getOwn].
  destruct (String.eqb "behavioral" triggerType);
    [|destruct (String.eqb "physiological" triggerType); [|discriminate]];
    intros E; injection E as <-; cbn [getOwn behavioral physiological];
    repeat (destruct (String.eqb _ severity);
            [intros E; injection E as <-; split; vm_compute; reflexivity|]);
    discriminate.
Qed.

(** The theorem at the protocol (behavioral, moderate). *)
Lemma protocol_code_passes_review_witness :
  exists protocol,
    getOwn behavioral "moderate" = Some protocol /\
    cr_issues (codeReview (code protocol)) = [] /\
    cr_isSafe (codeReview (code protocol)) = true.
Proof.
  eexists. split; [reflexivity|].
  apply (protocol_code_passes_review "behavioral" "moderate" behavioral);
    reflexivity.
Defined.
